(** * laserdot: minimum duty cycle watchdog for a laser module (AVR)

    Shallow embedding of [laserdot.c].  Integers are [Z] with the C
    wrap-around written out: [uint16_t] values live in [0, 2^16), the
    conversion formula is computed in [uint32_t], and the I/O registers
    [PORTB], [PINB] and [DDRB] are 8 bits wide.  The build-time macros
    [F_CPU] and [LIMIT_PULSE_UP] are parameters of the model, and the two
    builds of [main], with and without [TEST], are [main_test] and
    [main]. *)

From Stdlib Require Import ZArith List Bool Lia.
Import ListNotations.
Local Open Scope Z_scope.

(* lia and nia split [/] and [mod] into their Euclidean equations. *)
Ltac Zify.zify_post_hook ::= Z.to_euclidean_division_equations.

(** ** Fixed-width arithmetic *)

Definition wrap8 (x : Z) : Z := x mod 2 ^ 8.
Definition wrap16 (x : Z) : Z := x mod 2 ^ 16.
Definition wrap32 (x : Z) : Z := x mod 2 ^ 32.

(** [#define STUCK 4000] *)
Definition STUCK : Z := 4000.

(** ** The microcontroller

    From [<avr/io.h>]: bit numbers of port B and the bit-value macro. *)

Definition PB0 : Z := 0.
Definition PB1 : Z := 1.
Definition DDB1 : Z := 1.
Definition _BV (bit : Z) : Z := Z.shiftl 1 bit.

(** What the program does to the outside, in program order: a store to
    [PORTB] with the byte stored, or a busy-wait loop that went [n] times
    through its empty [asm volatile] statement. *)
Inductive event : Type :=
| Out (portb : Z)
| Nops (n : Z).

(** The registers and globals of the program, the EEPROM cell that holds
    [intensity], and the events so far. *)
Record mcu : Type := MkMcu {
  PORTB : Z;
  DDRB : Z;
  intensity : Z;
  pulse_high : Z;
  pulse_low : Z;
  trace : list event
}.

(** Computations over the microcontroller.  [None] is a busy-wait loop that
    was cut off by its fuel. *)
Definition M (A : Type) : Type := mcu -> option (A * mcu).

Definition ret {A : Type} (a : A) : M A := fun s => Some (a, s).

Definition bind {A B : Type} (c : M A) (k : A -> M B) : M B :=
  fun s => match c s with
           | Some (a, s') => k a s'
           | None => None
           end.

Notation "x <- c ;; k" := (bind c (fun x => k))
  (at level 61, c at next level, right associativity).
Notation "c ;; k" := (bind c (fun _ => k))
  (at level 61, right associativity).

Definition get {A : Type} (field : mcu -> A) : M A :=
  fun s => Some (field s, s).

Definition store_PORTB (v : Z) : M unit :=
  fun s => Some (tt, MkMcu (wrap8 v) (DDRB s) (intensity s)
                           (pulse_high s) (pulse_low s)
                           (trace s ++ [Out (wrap8 v)])).

Definition store_DDRB (v : Z) : M unit :=
  fun s => Some (tt, MkMcu (PORTB s) (wrap8 v) (intensity s)
                           (pulse_high s) (pulse_low s) (trace s)).

Definition store_pulse_high (v : Z) : M unit :=
  fun s => Some (tt, MkMcu (PORTB s) (DDRB s) (intensity s)
                           (wrap16 v) (pulse_low s) (trace s)).

Definition store_pulse_low (v : Z) : M unit :=
  fun s => Some (tt, MkMcu (PORTB s) (DDRB s) (intensity s)
                           (pulse_high s) (wrap16 v) (trace s)).

Definition log (e : event) : M unit :=
  fun s => Some (tt, MkMcu (PORTB s) (DDRB s) (intensity s)
                           (pulse_high s) (pulse_low s) (trace s ++ [e])).

(** [eeprom_read_byte(&intensity)] *)
Definition eeprom_read_byte : M Z := get intensity.

(** [PORTB |= bits], [PORTB &= ~bits] and [PORTB ^= bits] *)
Definition PORTB_or (bits : Z) : M unit :=
  v <- get PORTB ;; store_PORTB (Z.lor v bits).
Definition PORTB_and_not (bits : Z) : M unit :=
  v <- get PORTB ;; store_PORTB (Z.land v (Z.lnot bits)).
Definition PORTB_xor (bits : Z) : M unit :=
  v <- get PORTB ;; store_PORTB (Z.lxor v bits).

(** The level of output pin PB1 and of input pin PB0. *)
Definition out_high (s : mcu) : bool := Z.testbit (PORTB s) PB1.
Definition pin_high (pinb : Z) : bool := negb (Z.land pinb (_BV PB0) =? 0).
Definition pin_low (pinb : Z) : bool := Z.land pinb (_BV PB0) =? 0.

(** ** Timing primitives *)

(** [while (n--) asm volatile("");] with a 16-bit counter [n]: the test reads
    [n] and then decrements it.  [ran] counts the passes through the body.
    No counter value needs more than [2^16] tests. *)
Fixpoint spin (fuel : nat) (n : Z) (ran : Z) : option Z :=
  match fuel with
  | O => None
  | S fuel' =>
      if n =? 0 then Some ran
      else spin fuel' (wrap16 (n - 1)) (ran + 1)
  end.

Definition spin_fuel : nat := Z.to_nat (2 ^ 16).

Definition busy_wait (n : Z) : M unit :=
  fun s => match spin spin_fuel n 0 with
           | Some ran => log (Nops ran) s
           | None => None
           end.

(** [static inline void delay(uint16_t loops)] *)
Definition delay (loops : Z) : M unit := busy_wait loops.

(** [static inline void send_pulse(uint8_t port, uint16_t width)] *)
Definition send_pulse (port : Z) (width : Z) : M unit :=
  PORTB_or (_BV port) ;;
  busy_wait width ;;
  PORTB_and_not (_BV port).


Section Timing.

(** [F_CPU], the CPU frequency in Hz, given on the compiler's command
    line. *)
Variable F_CPU : Z.

(** [return (uint32_t)us * (F_CPU / 100000) / 50 + 1;]
    The product, the quotient and the sum are [uint32_t]; the result is
    converted to the [uint16_t] return type.  All operands are
    non-negative, so C's truncating division is [Z.div]. *)
Definition us2loops (us : Z) : Z :=
  wrap16 (wrap32 (wrap32 (us * (F_CPU / 100000)) / 50 + 1)).

(** The input range the source comment calls "limited to 64k loops": the
    exact value of the formula fits the 16-bit result. *)
Definition fits_loops (us : Z) : Prop :=
  0 <= us /\ 0 <= F_CPU /\ us * (F_CPU / 100000) / 50 + 1 < 2 ^ 16.

(** [static inline void delay_us(uint16_t us)] *)
Definition delay_us (us : Z) : M unit := delay (us2loops us).

(** [static inline void send_pulse_us(uint8_t port, uint16_t width)] *)
Definition send_pulse_us (port : Z) (width : Z) : M unit :=
  send_pulse port (us2loops width).

(** [void setup(void)]
    [pulse_high] is a [uint16_t], so [1000 - pulse_high] is computed in
    [unsigned int], 16 bits wide on AVR, before [us2loops] takes it as a
    [uint16_t]. *)
Definition setup : M unit :=
  store_DDRB (_BV DDB1) ;;
  PORTB_or (_BV PB0) ;;
  PORTB_and_not (_BV PB1) ;;
  b <- eeprom_read_byte ;;
  store_pulse_high b ;;
  ph <- get pulse_high ;;
  (if ph =? 255 then store_pulse_high 5 else ret tt) ;;
  ph <- get pulse_high ;;
  store_pulse_low (us2loops (wrap16 (1000 - ph))) ;;
  ph <- get pulse_high ;;
  store_pulse_high (us2loops ph).

(** The body of the [TEST] loop of [main]:
    [delay_us(500); PORTB ^= _BV(PB1);] *)
Definition test_iteration : M unit :=
  delay_us 500 ;;
  PORTB_xor (_BV PB1).

End Timing.

(** ** The watchdog loop

    [loop()] is two polling loops in sequence, and [main] calls it forever.
    The only thing the program waits for is the next read of [PINB], so the
    embedding runs it one read at a time: a state is the polling loop the
    program is in, together with the local [tout], and [poll] takes the byte
    read from [PINB] and runs the program up to the next read. *)

Inductive phase : Type :=
| MirroringLow     (* in [while (!(PINB & _BV(PB0)))], lines 95-101 *)
| MirroringHigh.   (* in [while (PINB & _BV(PB0))], lines 106-114 *)

Definition loop_state : Type := (phase * Z)%type.

Section Watchdog.

(** Whether the build defines [LIMIT_PULSE_UP]. *)
Variable LIMIT_PULSE_UP : bool.

(** [if (__builtin_expect(!tout--, 0)) {
       send_pulse(PB1, pulse_high); delay(pulse_low); tout = STUCK; }]
    The test reads [tout], the decrement (16-bit, wrapping) is stored, and
    the body then overwrites it.  Returns the new [tout]. *)
Definition timeout_check (tout : Z) : M Z :=
  let decremented := wrap16 (tout - 1) in
  if tout =? 0 then
    width <- get pulse_high ;;
    send_pulse PB1 width ;;
    loops <- get pulse_low ;;
    delay loops ;;
    ret STUCK
  else
    ret decremented.

(** One read of [PINB] and what follows it, up to the next read. *)
Definition poll (PINB : Z) (st : loop_state) : M loop_state :=
  let (pc, tout) := st in
  match pc with
  | MirroringLow =>
      if Z.land PINB (_BV PB0) =? 0 then
        (* the loop test holds: run the body, test again *)
        tout' <- timeout_check tout ;;
        ret (MirroringLow, tout')
      else
        (* the pulse started *)
        PORTB_or (_BV PB1) ;;
        ret (MirroringHigh, STUCK)
  | MirroringHigh =>
      if negb (Z.land PINB (_BV PB0) =? 0) then
        tout' <- (if LIMIT_PULSE_UP then timeout_check tout else ret tout) ;;
        ret (MirroringHigh, tout')
      else
        (* the pulse stopped; [loop] returns, [main] calls it again and
           it starts with [tout = STUCK] *)
        PORTB_and_not (_BV PB1) ;;
        ret (MirroringLow, STUCK)
  end.

(** The program from a state of the loop, over the successive bytes read
    from [PINB]. *)
Fixpoint run (pins : list Z) (st : loop_state) : M loop_state :=
  match pins with
  | [] => ret st
  | pinb :: pins' => st' <- poll pinb st ;; run pins' st'
  end.

(** The level of the output pin after each read of [PINB]. *)
Fixpoint run_outputs (pins : list Z) (st : loop_state) : M (list bool) :=
  match pins with
  | [] => ret []
  | pinb :: pins' =>
      st' <- poll pinb st ;;
      level <- get out_high ;;
      levels <- run_outputs pins' st' ;;
      ret (level :: levels)
  end.

End Watchdog.

(** [loop()] is entered with [tout = STUCK] in its first polling loop. *)
Definition loop_entry : loop_state := (MirroringLow, STUCK).

(** The first [n] rounds of a [while (1)] loop with body [body]. *)
Fixpoint rounds (n : nat) (body : M unit) : M unit :=
  match n with
  | O => ret tt
  | S n' => body ;; rounds n' body
  end.

(** [main] built with [TEST]: [setup()] and [n] rounds of the test loop. *)
Definition main_test (F_CPU : Z) (n : nat) : M unit :=
  setup F_CPU ;; rounds n (test_iteration F_CPU).

(** [main] built without [TEST]: [setup()], then [loop()] forever, over the
    bytes read from [PINB]. *)
Definition main (F_CPU : Z) (LIMIT_PULSE_UP : bool) (pins : list Z)
  : M loop_state :=
  setup F_CPU ;; run LIMIT_PULSE_UP pins loop_entry.

(** ** Vocabulary of the properties *)

Definition uint16 (x : Z) : Prop := 0 <= x < 2 ^ 16.

(** The microcontroller after a substitute pulse: PB1 was set, the busy loop
    ran [pulse_high] times, PB1 was cleared, the busy loop ran [pulse_low]
    times. *)
Definition pulsed (s : mcu) : mcu :=
  let high := wrap8 (Z.lor (PORTB s) (_BV PB1)) in
  let low := wrap8 (Z.land high (Z.lnot (_BV PB1))) in
  MkMcu low (DDRB s) (intensity s) (pulse_high s) (pulse_low s)
        (trace s ++ [Out high; Nops (pulse_high s); Out low;
                     Nops (pulse_low s)]).

Fixpoint pulsed_times (n : nat) (s : mcu) : mcu :=
  match n with
  | O => s
  | S n' => pulsed_times n' (pulsed s)
  end.

(** The input changes level before a countdown runs out: no more than
    [STUCK] successive reads see the same level.  [level] is the level of
    the previous read and [seen] the number of successive reads that saw
    it. *)
Fixpoint changes_in_time (level : bool) (seen : Z) (pins : list Z) : bool :=
  match pins with
  | [] => true
  | pinb :: pins' =>
      if Bool.eqb (pin_high pinb) level
      then (seen + 1 <=? STUCK) && changes_in_time level (seen + 1) pins'
      else changes_in_time (pin_high pinb) 1 pins'
  end.

(** The stores to [PORTB] of a program that copies the input level to PB1
    when it changes, and does nothing else. *)
Fixpoint mirror_events (portb : Z) (level : bool) (pins : list Z)
  : list event :=
  match pins with
  | [] => []
  | pinb :: pins' =>
      if Bool.eqb (pin_high pinb) level then mirror_events portb level pins'
      else
        let portb' :=
          if pin_high pinb then wrap8 (Z.lor portb (_BV PB1))
          else wrap8 (Z.land portb (Z.lnot (_BV PB1))) in
        Out portb' :: mirror_events portb' (pin_high pinb) pins'
  end.

(** What [setup] leaves behind: the port initialised, and the two pulse
    widths computed from the EEPROM byte. *)
Definition calibrated (F_CPU : Z) (s : mcu) : mcu :=
  let raw := if intensity s =? 255 then 5 else intensity s in
  let portb := wrap8 (Z.lor (PORTB s) (_BV PB0)) in
  let portb' := wrap8 (Z.land portb (Z.lnot (_BV PB1))) in
  MkMcu portb' (wrap8 (_BV DDB1)) (intensity s)
        (us2loops F_CPU raw) (us2loops F_CPU (wrap16 (1000 - raw)))
        (trace s ++ [Out portb; Out portb']).

(** The microcontroller with another byte in the EEPROM. *)
Definition with_intensity (raw : Z) (s : mcu) : mcu :=
  MkMcu (PORTB s) (DDRB s) raw (pulse_high s) (pulse_low s) (trace s).

(** The polling loop that waits for the input to leave [level]. *)
Definition phase_of (level : bool) : phase :=
  if level then MirroringHigh else MirroringLow.

(** The events of [n] rounds of the test loop from port value [portb]:
    [half] passes of the busy loop, then PB1 toggled. *)
Fixpoint square_wave (n : nat) (half : Z) (portb : Z) : list event :=
  match n with
  | O => []
  | S n' =>
      let portb' := wrap8 (Z.lxor portb (_BV PB1)) in
      Nops half :: Out portb' :: square_wave n' half portb'
  end.

(** The microcontroller after a store of [v] to [PORTB]. *)
Definition stored (v : Z) (s : mcu) : mcu :=
  MkMcu (wrap8 v) (DDRB s) (intensity s) (pulse_high s) (pulse_low s)
        (trace s ++ [Out (wrap8 v)]).

(** [s'] differs from [s] at most in bit [port] of [PORTB] and in a longer
    trace: the data direction, the EEPROM, the two pulse widths and the
    other seven port bits are those of [s]. *)
Definition only_bit_changed (port : Z) (s s' : mcu) : Prop :=
  DDRB s' = DDRB s /\ intensity s' = intensity s /\
  pulse_high s' = pulse_high s /\ pulse_low s' = pulse_low s /\
  0 <= PORTB s' < 2 ^ 8 /\
  (forall i, 0 <= i -> i <> port ->
             Z.testbit (PORTB s') i = Z.testbit (PORTB s) i) /\
  exists added, trace s' = trace s ++ added.

Definition is_Nops (e : event) : bool :=
  match e with
  | Nops _ => true
  | Out _ => false
  end.

(** The number of busy-wait loops in a trace.  A substitute pulse runs
    two. *)
Definition busy_waits (t : list event) : Z :=
  Z.of_nat (length (filter is_Nops t)).

(** ** Facts about the timing primitives *)

Section TimingFacts.

Variable F_CPU : Z.

Lemma us2loops_exact (us : Z) :
  fits_loops F_CPU us -> us2loops F_CPU us = us * (F_CPU / 100000) / 50 + 1.
Proof.
  unfold fits_loops, us2loops, wrap16, wrap32.
  intros (Hus & Hf & Hfit).
  assert (Hk : 0 <= F_CPU / 100000) by (apply Z.div_pos; lia).
  assert (Hp : 0 <= us * (F_CPU / 100000)) by nia.
  rewrite (Z.mod_small (us * _)) by lia.
  rewrite (Z.mod_small (_ + 1)) by lia.
  apply Z.mod_small. lia.
Qed.

Lemma wrap16_us2loops (us : Z) :
  wrap16 (us2loops F_CPU us) = us2loops F_CPU us.
Proof. unfold us2loops, wrap16. apply Z.mod_mod. lia. Qed.

Lemma us2loops_uint16 (us : Z) : uint16 (us2loops F_CPU us).
Proof. unfold uint16, us2loops, wrap16. apply Z.mod_pos_bound. lia. Qed.

Lemma fits_loops_le (a b : Z) :
  0 <= a <= b -> fits_loops F_CPU b -> fits_loops F_CPU a.
Proof.
  unfold fits_loops. intros Hab (Hb & Hf & Hfit).
  assert (Hk : 0 <= F_CPU / 100000) by (apply Z.div_pos; lia).
  assert (Hle : a * (F_CPU / 100000) / 50 <= b * (F_CPU / 100000) / 50).
  { apply Z.div_le_mono; [lia | nia]. }
  lia.
Qed.

Lemma us2loops_mono (a b : Z) :
  0 <= a <= b -> fits_loops F_CPU b ->
  us2loops F_CPU a <= us2loops F_CPU b.
Proof.
  intros Hab Hb.
  rewrite (us2loops_exact a) by (eapply fits_loops_le; eauto).
  rewrite (us2loops_exact b) by assumption.
  destruct Hb as (_ & Hf & _).
  assert (Hk : 0 <= F_CPU / 100000) by (apply Z.div_pos; lia).
  apply Z.add_le_mono_r, Z.div_le_mono; [lia | nia].
Qed.

Lemma setup_calibrated (s : mcu) :
  0 <= intensity s <= 255 ->
  setup F_CPU s = Some (tt, calibrated F_CPU s).
Proof.
  intros Hraw.
  unfold setup, calibrated, bind, store_DDRB, PORTB_or, PORTB_and_not,
    eeprom_read_byte, store_pulse_high, store_pulse_low, store_PORTB,
    get, ret, bind; cbn [PORTB DDRB intensity pulse_high pulse_low trace].
  assert (Hw : wrap16 (intensity s) = intensity s)
    by (unfold wrap16; apply Z.mod_small; lia).
  rewrite Hw.
  destruct (intensity s =? 255) eqn:E;
    cbn [PORTB DDRB intensity pulse_high pulse_low trace];
    rewrite ?Hw, ?wrap16_us2loops, <- ?app_assoc; reflexivity.
Qed.

End TimingFacts.

(** ** Calibration *)

(** C2: for every stored byte from 0 to 254, [setup] leaves
    [pulse_high = us2loops raw] and [pulse_low = us2loops (1000 - raw)], so
    the two widths add up to [us2loops raw + us2loops (1000 - raw)]. *)
Theorem setup_splits_1000us (F_CPU : Z) (s : mcu) :
  0 <= intensity s <= 254 ->
  exists s',
    setup F_CPU s = Some (tt, s') /\
    pulse_high s' = us2loops F_CPU (intensity s) /\
    pulse_low s' = us2loops F_CPU (1000 - intensity s) /\
    pulse_high s' + pulse_low s' =
      us2loops F_CPU (intensity s) + us2loops F_CPU (1000 - intensity s).
Proof.
  intros Hraw. exists (calibrated F_CPU s).
  rewrite setup_calibrated by lia.
  unfold calibrated; cbn [pulse_high pulse_low].
  replace (intensity s =? 255) with false by (symmetry; apply Z.eqb_neq; lia).
  replace (wrap16 (1000 - intensity s)) with (1000 - intensity s)
    by (unfold wrap16; rewrite Z.mod_small; lia).
  repeat split; reflexivity.
Qed.

Lemma setup_splits_1000us_witness :
  0 <= intensity (MkMcu 0 0 10 0 0 []) <= 254 /\
  exists s',
    setup 16000000 (MkMcu 0 0 10 0 0 []) = Some (tt, s') /\
    pulse_high s' = us2loops 16000000 10 /\
    pulse_low s' = us2loops 16000000 (1000 - 10) /\
    pulse_high s' + pulse_low s' =
      us2loops 16000000 10 + us2loops 16000000 (1000 - 10).
Proof.
  split; [cbn; lia |].
  apply (setup_splits_1000us 16000000 (MkMcu 0 0 10 0 0 [])). cbn; lia.
Defined.

(** The rounding tolerance of the 1000 microseconds: while the formula does
    not overflow, the two widths together are the loops of 1000
    microseconds, or one loop more. *)
Lemma setup_period_tolerance (F_CPU : Z) (s : mcu) :
  0 <= intensity s <= 254 -> fits_loops F_CPU 1000 ->
  us2loops F_CPU 1000 <=
    pulse_high (calibrated F_CPU s) + pulse_low (calibrated F_CPU s) <=
  us2loops F_CPU 1000 + 1.
Proof.
  intros Hraw Hfit.
  unfold calibrated; cbn [pulse_high pulse_low].
  replace (intensity s =? 255) with false by (symmetry; apply Z.eqb_neq; lia).
  replace (wrap16 (1000 - intensity s)) with (1000 - intensity s)
    by (unfold wrap16; rewrite Z.mod_small; lia).
  rewrite (us2loops_exact F_CPU (intensity s))
    by (apply (fits_loops_le F_CPU _ 1000); [lia | assumption]).
  rewrite (us2loops_exact F_CPU (1000 - intensity s))
    by (apply (fits_loops_le F_CPU _ 1000); [lia | assumption]).
  rewrite (us2loops_exact F_CPU 1000) by assumption.
  destruct Hfit as (_ & Hf & _).
  assert (Hk : 0 <= F_CPU / 100000) by (apply Z.div_pos; lia).
  set (k := F_CPU / 100000) in *. set (r := intensity s) in *.
  replace (1000 * k) with (r * k + (1000 - r) * k) by ring.
  assert (0 <= r * k) by nia. assert (0 <= (1000 - r) * k) by nia.
  lia.
Qed.

(** C3: [setup] with the byte 255 in the EEPROM replaces it by 5 before it
    computes either width: it leaves [pulse_high = us2loops 5] and
    [pulse_low = us2loops (1000 - 5)], the same two widths as with the byte
    5, and does the same to the ports. *)
Theorem setup_unset_is_5 (F_CPU : Z) (s : mcu) :
  exists a b,
    setup F_CPU (with_intensity 255 s) = Some (tt, a) /\
    setup F_CPU (with_intensity 5 s) = Some (tt, b) /\
    pulse_high a = us2loops F_CPU 5 /\
    pulse_low a = us2loops F_CPU (1000 - 5) /\
    pulse_high b = us2loops F_CPU 5 /\
    pulse_low b = us2loops F_CPU (1000 - 5) /\
    pulse_high a = pulse_high b /\
    pulse_low a = pulse_low b /\
    PORTB a = PORTB b /\ DDRB a = DDRB b /\ trace a = trace b.
Proof.
  exists (calibrated F_CPU (with_intensity 255 s)),
         (calibrated F_CPU (with_intensity 5 s)).
  rewrite !setup_calibrated by (cbn; lia).
  repeat split; reflexivity.
Qed.

(** Without the replacement the widths would differ: at 16 MHz the byte 255
    taken as it is would give 817 loops, not the 17 of the byte 5. *)
Lemma setup_unset_at_16MHz :
  exists a,
    setup 16000000 (MkMcu 0 0 255 0 0 []) = Some (tt, a) /\
    pulse_high a = 17 /\ pulse_low a = 3185 /\
    us2loops 16000000 255 = 817.
Proof. eexists. repeat split; reflexivity. Qed.

(** C4, as stated, fails: at 16 MHz the byte 254 gives 813 loops, and 250
    microseconds are 801 loops. *)
Lemma setup_exceeds_250us :
  exists s',
    setup 16000000 (MkMcu 0 0 254 0 0 []) = Some (tt, s') /\
    intensity s' <> 255 /\
    ~ pulse_high s' <= us2loops 16000000 250.
Proof.
  eexists. split; [reflexivity |].
  split; cbn; [discriminate | vm_compute; intros H; apply H; reflexivity].
Qed.

(** C4, amended: [setup] does not compare the byte with 250: for every
    byte from 0 to 254 the high width is exactly the loops of that many
    microseconds.  So for a byte up to 250 it stays within the loops of 250
    microseconds, and for the bytes 251 to 254 it is bounded only by the
    loops of 254 microseconds (while the formula does not overflow). *)
Theorem setup_pulse_high_bound (F_CPU : Z) (s : mcu) :
  0 <= intensity s <= 254 -> fits_loops F_CPU 254 ->
  exists s',
    setup F_CPU s = Some (tt, s') /\
    pulse_high s' = us2loops F_CPU (intensity s) /\
    pulse_high s' <= us2loops F_CPU (Z.max 250 (intensity s)) /\
    us2loops F_CPU (Z.max 250 (intensity s)) <= us2loops F_CPU 254.
Proof.
  intros Hraw Hfit. exists (calibrated F_CPU s).
  rewrite setup_calibrated by lia.
  unfold calibrated; cbn [pulse_high].
  replace (intensity s =? 255) with false by (symmetry; apply Z.eqb_neq; lia).
  repeat split.
  - apply us2loops_mono; [lia |].
    apply (fits_loops_le F_CPU _ 254); [lia | assumption].
  - apply us2loops_mono; [lia | assumption].
Qed.

Lemma setup_pulse_high_bound_witness :
  (0 <= intensity (MkMcu 0 0 254 0 0 []) <= 254 /\
   fits_loops 16000000 254) /\
  exists s',
    setup 16000000 (MkMcu 0 0 254 0 0 []) = Some (tt, s') /\
    pulse_high s' = us2loops 16000000 (intensity (MkMcu 0 0 254 0 0 [])) /\
    pulse_high s' <=
      us2loops 16000000 (Z.max 250 (intensity (MkMcu 0 0 254 0 0 []))) /\
    us2loops 16000000 (Z.max 250 (intensity (MkMcu 0 0 254 0 0 []))) <=
      us2loops 16000000 254.
Proof.
  assert (H : 0 <= intensity (MkMcu 0 0 254 0 0 []) <= 254 /\
              fits_loops 16000000 254).
  { unfold fits_loops; cbn; lia. }
  split; [exact H |].
  apply (setup_pulse_high_bound 16000000 (MkMcu 0 0 254 0 0 []));
    apply H.
Defined.

(** The bytes 251 to 254 do pass the loops of 250 microseconds at 16 MHz:
    804, 807, 810 and 813 loops against 801. *)
Lemma setup_above_250_at_16MHz :
  us2loops 16000000 250 = 801 /\
  map (fun raw =>
         match setup 16000000 (MkMcu 0 0 raw 0 0 []) with
         | Some (_, s') => pulse_high s'
         | None => 0
         end) [250; 251; 252; 253; 254]
  = [801; 804; 807; 810; 813].
Proof. split; reflexivity. Qed.

(** ** The conversion from microseconds to loops *)

(** C6, as stated, fails: at 9.6 MHz, 34133 microseconds are 65536 loops by
    the formula, which is 0 in the 16-bit result. *)
Lemma us2loops_zero_at_9600000 :
  0 <= 34133 < 2 ^ 16 /\
  us2loops 9600000 34133 = 0 /\
  ~ 1 <= us2loops 9600000 34133.
Proof.
  split; [lia |]. split; [reflexivity |].
  vm_compute. intros H. apply H. reflexivity.
Qed.

(** C6, amended: [us2loops] is at least 1 for 0 microseconds, whatever the
    clock, and for every input whose loops fit the 16-bit result. *)
Theorem us2loops_at_least_1 (F_CPU us : Z) :
  us = 0 \/ fits_loops F_CPU us ->
  1 <= us2loops F_CPU us.
Proof.
  intros [-> | Hfit].
  - unfold us2loops. rewrite Z.mul_0_l. cbn. lia.
  - rewrite us2loops_exact by assumption.
    destruct Hfit as (Hus & Hf & _).
    assert (Hk : 0 <= F_CPU / 100000) by (apply Z.div_pos; lia).
    assert (0 <= us * (F_CPU / 100000)) by nia.
    lia.
Qed.

Lemma us2loops_at_least_1_witness :
  (34132 = 0 \/ fits_loops 9600000 34132) /\ 1 <= us2loops 9600000 34132.
Proof.
  assert (H : 34132 = 0 \/ fits_loops 9600000 34132).
  { right. unfold fits_loops. cbn. lia. }
  split; [exact H |].
  apply (us2loops_at_least_1 9600000 34132 H).
Defined.

(** At 16 MHz and at 8 MHz no 16-bit input gives 0 loops, overflow or
    not. *)
Lemma us2loops_16MHz_nonzero (us : Z) :
  0 <= us < 2 ^ 16 -> 1 <= us2loops 16000000 us.
Proof.
  intros Hus. unfold us2loops, wrap16, wrap32.
  change (16000000 / 100000) with 160. lia.
Qed.

Lemma us2loops_8MHz_nonzero (us : Z) :
  0 <= us < 2 ^ 16 -> 1 <= us2loops 8000000 us.
Proof.
  intros Hus. unfold us2loops, wrap16, wrap32.
  change (8000000 / 100000) with 80. lia.
Qed.

(** C7: [us2loops] is monotonically non-decreasing on the inputs whose loops
    fit the 16-bit result. *)
Theorem us2loops_monotone (F_CPU a b : Z) :
  0 <= a <= b -> fits_loops F_CPU b ->
  us2loops F_CPU a <= us2loops F_CPU b.
Proof. apply us2loops_mono. Qed.

Lemma us2loops_monotone_witness :
  (0 <= 5 <= 995 /\ fits_loops 16000000 995) /\
  us2loops 16000000 5 <= us2loops 16000000 995.
Proof.
  assert (H : 0 <= 5 <= 995 /\ fits_loops 16000000 995).
  { unfold fits_loops; cbn; lia. }
  split; [exact H |].
  apply (us2loops_monotone 16000000 5 995); apply H.
Defined.

(** Beyond that range it is not: at 16 MHz the result wraps around between
    20479 and 20480 microseconds. *)
Lemma us2loops_wraps_16MHz :
  us2loops 16000000 20479 = 65533 /\ us2loops 16000000 20480 = 1.
Proof. split; reflexivity. Qed.

(** ** Facts about the busy-wait loop and the pulse *)

Lemma spin_runs (fuel : nat) :
  forall n ran, 0 <= n < 2 ^ 16 -> n < Z.of_nat fuel ->
  spin fuel n ran = Some (ran + n).
Proof.
  induction fuel as [| fuel IH]; intros n ran Hn Hfuel; [lia |].
  cbn [spin]. destruct (n =? 0) eqn:E.
  - apply Z.eqb_eq in E. subst n. f_equal. lia.
  - apply Z.eqb_neq in E.
    assert (Hw : wrap16 (n - 1) = n - 1)
      by (unfold wrap16; apply Z.mod_small; lia).
    rewrite Hw, IH by lia. f_equal. lia.
Qed.

Lemma busy_wait_runs (n : Z) (s : mcu) :
  uint16 n -> busy_wait n s = log (Nops n) s.
Proof.
  intros Hn. unfold busy_wait.
  rewrite spin_runs; [reflexivity | exact Hn |].
  unfold spin_fuel. rewrite Z2Nat.id by lia. apply Hn.
Qed.

Lemma bit_PB1_set (v : Z) :
  Z.testbit (wrap8 (Z.lor v (_BV PB1))) PB1 = true.
Proof.
  unfold wrap8. rewrite Z.mod_pow2_bits_low by (unfold PB1; lia).
  rewrite Z.lor_spec. apply orb_true_r.
Qed.

Lemma bit_PB1_cleared (v : Z) :
  Z.testbit (wrap8 (Z.land v (Z.lnot (_BV PB1)))) PB1 = false.
Proof.
  unfold wrap8. rewrite Z.mod_pow2_bits_low by (unfold PB1; lia).
  rewrite Z.land_spec. apply andb_false_r.
Qed.

Lemma bit_PB1_toggled (v : Z) :
  Z.testbit (wrap8 (Z.lxor v (_BV PB1))) PB1 = negb (Z.testbit v PB1).
Proof.
  unfold wrap8. rewrite Z.mod_pow2_bits_low by (unfold PB1; lia).
  rewrite Z.lxor_spec. apply xorb_true_r.
Qed.

Lemma send_pulse_runs (width : Z) (s : mcu) :
  uint16 width ->
  send_pulse PB1 width s
  = Some (tt,
          MkMcu (wrap8 (Z.land (wrap8 (Z.lor (PORTB s) (_BV PB1)))
                               (Z.lnot (_BV PB1))))
                (DDRB s) (intensity s) (pulse_high s) (pulse_low s)
                (trace s ++
                 [Out (wrap8 (Z.lor (PORTB s) (_BV PB1))); Nops width;
                  Out (wrap8 (Z.land (wrap8 (Z.lor (PORTB s) (_BV PB1)))
                                     (Z.lnot (_BV PB1))))])).
Proof.
  intros Hw.
  unfold send_pulse, bind, PORTB_or, PORTB_and_not, get, bind.
  unfold store_PORTB at 1. rewrite busy_wait_runs by exact Hw.
  unfold log, store_PORTB.
  cbn [PORTB DDRB intensity pulse_high pulse_low trace].
  rewrite <- !app_assoc. reflexivity.
Qed.

Lemma delay_runs (loops : Z) (s : mcu) :
  uint16 loops ->
  delay loops s
  = Some (tt, MkMcu (PORTB s) (DDRB s) (intensity s) (pulse_high s)
                    (pulse_low s) (trace s ++ [Nops loops])).
Proof.
  intros Hl. unfold delay. rewrite busy_wait_runs by exact Hl. reflexivity.
Qed.

Lemma pulsed_widths (s : mcu) :
  pulse_high (pulsed s) = pulse_high s /\ pulse_low (pulsed s) = pulse_low s.
Proof. split; reflexivity. Qed.

Lemma pulsed_times_widths (n : nat) :
  forall s, pulse_high (pulsed_times n s) = pulse_high s /\
            pulse_low (pulsed_times n s) = pulse_low s.
Proof.
  induction n as [| n IH]; intros s; [split; reflexivity |].
  cbn [pulsed_times]. destruct (IH (pulsed s)) as [-> ->]. apply pulsed_widths.
Qed.

Lemma pulsed_times_S (n : nat) :
  forall s, pulsed_times (S n) s = pulsed (pulsed_times n s).
Proof.
  induction n as [| n IH]; intros s; [reflexivity |].
  change (pulsed_times (S (S n)) s) with (pulsed_times (S n) (pulsed s)).
  rewrite IH. reflexivity.
Qed.

(** ** Facts about one poll *)

Section PollFacts.

Variable LIMIT_PULSE_UP : bool.

Lemma timeout_check_counts (tout : Z) (s : mcu) :
  0 < tout < 2 ^ 16 ->
  timeout_check tout s = Some (tout - 1, s).
Proof.
  intros Ht. unfold timeout_check.
  replace (tout =? 0) with false by (symmetry; apply Z.eqb_neq; lia).
  unfold ret, wrap16. rewrite Z.mod_small by lia. reflexivity.
Qed.

Lemma timeout_check_fires (s : mcu) :
  uint16 (pulse_high s) -> uint16 (pulse_low s) ->
  timeout_check 0 s = Some (STUCK, pulsed s).
Proof.
  intros Hh Hl. unfold timeout_check. cbn [Z.eqb].
  unfold bind at 1. unfold get at 1.
  unfold bind at 1. rewrite send_pulse_runs by exact Hh.
  unfold bind at 1. unfold get at 1.
  cbn [pulse_low].
  unfold bind at 1. rewrite delay_runs by exact Hl.
  unfold ret, pulsed.
  cbn [PORTB DDRB intensity pulse_high pulse_low trace].
  rewrite <- !app_assoc. reflexivity.
Qed.

Lemma poll_low_counts (pinb tout : Z) (s : mcu) :
  pin_low pinb = true -> 0 < tout < 2 ^ 16 ->
  poll LIMIT_PULSE_UP pinb (MirroringLow, tout) s
  = Some ((MirroringLow, tout - 1), s).
Proof.
  unfold pin_low. intros Hp Ht. unfold poll. rewrite Hp.
  unfold bind. rewrite timeout_check_counts by exact Ht. reflexivity.
Qed.

Lemma poll_low_fires (pinb : Z) (s : mcu) :
  pin_low pinb = true -> uint16 (pulse_high s) -> uint16 (pulse_low s) ->
  poll LIMIT_PULSE_UP pinb (MirroringLow, 0) s
  = Some ((MirroringLow, STUCK), pulsed s).
Proof.
  unfold pin_low. intros Hp Hh Hl. unfold poll. rewrite Hp.
  unfold bind. rewrite timeout_check_fires by assumption. reflexivity.
Qed.

Lemma poll_rising (pinb tout : Z) (s : mcu) :
  pin_high pinb = true ->
  poll LIMIT_PULSE_UP pinb (MirroringLow, tout) s
  = Some ((MirroringHigh, STUCK),
          MkMcu (wrap8 (Z.lor (PORTB s) (_BV PB1))) (DDRB s) (intensity s)
                (pulse_high s) (pulse_low s)
                (trace s ++ [Out (wrap8 (Z.lor (PORTB s) (_BV PB1)))])).
Proof.
  unfold pin_high. intros Hp. apply negb_true_iff in Hp.
  unfold poll. rewrite Hp. reflexivity.
Qed.

Lemma poll_falling (pinb tout : Z) (s : mcu) :
  pin_high pinb = false ->
  poll LIMIT_PULSE_UP pinb (MirroringHigh, tout) s
  = Some ((MirroringLow, STUCK),
          MkMcu (wrap8 (Z.land (PORTB s) (Z.lnot (_BV PB1)))) (DDRB s)
                (intensity s) (pulse_high s) (pulse_low s)
                (trace s ++
                 [Out (wrap8 (Z.land (PORTB s) (Z.lnot (_BV PB1))))])).
Proof.
  unfold pin_high. intros Hp. unfold poll. rewrite Hp. reflexivity.
Qed.

Lemma poll_high_counts (pinb tout : Z) (s : mcu) :
  pin_high pinb = true -> 0 < tout < 2 ^ 16 ->
  poll LIMIT_PULSE_UP pinb (MirroringHigh, tout) s
  = Some ((MirroringHigh, if LIMIT_PULSE_UP then tout - 1 else tout), s).
Proof.
  unfold pin_high. intros Hp Ht. unfold poll. rewrite Hp.
  unfold bind. destruct LIMIT_PULSE_UP.
  - rewrite timeout_check_counts by exact Ht. reflexivity.
  - reflexivity.
Qed.

Lemma run_app (pins more : list Z) :
  forall st s,
    run LIMIT_PULSE_UP (pins ++ more) st s
    = match run LIMIT_PULSE_UP pins st s with
      | Some (st', s') => run LIMIT_PULSE_UP more st' s'
      | None => None
      end.
Proof.
  induction pins as [| p pins IH]; intros st s; [reflexivity |].
  cbn [run app]. unfold bind.
  destruct (poll LIMIT_PULSE_UP p st s) as [[st' s'] |]; [apply IH | reflexivity].
Qed.

Lemma poll_high_fires (pinb : Z) (s : mcu) :
  pin_high pinb = true -> uint16 (pulse_high s) -> uint16 (pulse_low s) ->
  poll true pinb (MirroringHigh, 0) s
  = Some ((MirroringHigh, STUCK), pulsed s).
Proof.
  unfold pin_high. intros Hp Hh Hl. unfold poll. rewrite Hp.
  unfold bind. rewrite timeout_check_fires by assumption. reflexivity.
Qed.

(** A poll always completes, keeps [tout] between 0 and [STUCK], and leaves
    the two pulse widths alone. *)
Lemma poll_total (pinb : Z) (st : loop_state) (s : mcu) :
  uint16 (pulse_high s) -> uint16 (pulse_low s) -> 0 <= snd st <= STUCK ->
  exists st' s',
    poll LIMIT_PULSE_UP pinb st s = Some (st', s') /\
    0 <= snd st' <= STUCK /\
    pulse_high s' = pulse_high s /\ pulse_low s' = pulse_low s.
Proof.
  intros Hh Hl Ht. destruct st as [pc tout]. cbn [snd] in Ht.
  assert (HS : 0 <= STUCK <= STUCK) by (unfold STUCK; lia).
  assert (Hcases : tout = 0 \/ 0 < tout < 2 ^ 16) by (unfold STUCK in Ht; lia).
  destruct pc, (pin_high pinb) eqn:Hp.
  - rewrite poll_rising by exact Hp. do 2 eexists. split; [reflexivity |].
    cbn [snd pulse_high pulse_low]. auto.
  - assert (Hlow : pin_low pinb = true)
      by (unfold pin_high in Hp; unfold pin_low;
          apply negb_false_iff in Hp; exact Hp).
    destruct Hcases as [-> | Hpos].
    + rewrite poll_low_fires by assumption. do 2 eexists.
      split; [reflexivity |]. cbn [snd]. split; [exact HS |].
      apply pulsed_widths.
    + rewrite poll_low_counts by assumption. do 2 eexists.
      split; [reflexivity |]. cbn [snd]. repeat split; lia.
  - destruct Hcases as [-> | Hpos].
    + destruct LIMIT_PULSE_UP.
      * rewrite poll_high_fires by assumption. do 2 eexists.
        split; [reflexivity |]. cbn [snd]. split; [exact HS |].
        apply pulsed_widths.
      * unfold poll. fold (pin_high pinb). rewrite Hp.
        do 2 eexists. split; [reflexivity |]. cbn [snd]. auto.
    + rewrite poll_high_counts by assumption. do 2 eexists.
      split; [reflexivity |]. cbn [snd].
      destruct LIMIT_PULSE_UP; repeat split; lia.
  - rewrite poll_falling by exact Hp. do 2 eexists. split; [reflexivity |].
    cbn [snd pulse_high pulse_low]. auto.
Qed.

Lemma run_total (pins : list Z) :
  forall st s,
    uint16 (pulse_high s) -> uint16 (pulse_low s) -> 0 <= snd st <= STUCK ->
    exists st' s',
      run LIMIT_PULSE_UP pins st s = Some (st', s') /\
      0 <= snd st' <= STUCK /\
      pulse_high s' = pulse_high s /\ pulse_low s' = pulse_low s.
Proof.
  induction pins as [| p pins IH]; intros st s Hh Hl Ht.
  - exists st, s. repeat split; auto; apply Ht.
  - destruct (poll_total p st s Hh Hl Ht) as (st1 & s1 & E1 & Ht1 & Eh & El).
    destruct (IH st1 s1) as (st2 & s2 & E2 & Ht2 & Eh2 & El2);
      [rewrite Eh; exact Hh | rewrite El; exact Hl | exact Ht1 |].
    exists st2, s2. cbn [run]. unfold bind. rewrite E1, E2.
    repeat split; try apply Ht2; congruence.
Qed.

(** While the input reads low and [tout] has not run out, polling only
    counts [tout] down. *)
Lemma run_low_counts (pins : list Z) :
  forall tout s,
    forallb pin_low pins = true ->
    Z.of_nat (length pins) <= tout < 2 ^ 16 ->
    run LIMIT_PULSE_UP pins (MirroringLow, tout) s
    = Some ((MirroringLow, tout - Z.of_nat (length pins)), s).
Proof.
  induction pins as [| p pins IH]; intros tout s Hlow Hlen.
  - cbn. unfold ret. rewrite Z.sub_0_r. reflexivity.
  - cbn [forallb] in Hlow. apply andb_true_iff in Hlow as [Hp Hlow].
    cbn [length] in Hlen. rewrite Nat2Z.inj_succ in Hlen.
    cbn [run]. unfold bind. rewrite poll_low_counts by (auto; lia).
    rewrite IH by (auto; lia).
    cbn [length]. rewrite Nat2Z.inj_succ. do 3 f_equal. lia.
Qed.

(** The read that finds [tout] at 0 sends the pulse. *)
Lemma run_low_first_pulse (pins : list Z) :
  forall tout s,
    uint16 (pulse_high s) -> uint16 (pulse_low s) ->
    forallb pin_low pins = true ->
    0 <= tout < 2 ^ 16 -> Z.of_nat (length pins) = tout + 1 ->
    run LIMIT_PULSE_UP pins (MirroringLow, tout) s
    = Some ((MirroringLow, STUCK), pulsed s).
Proof.
  induction pins as [| p pins IH]; intros tout s Hh Hl Hlow Ht Hlen.
  - cbn [length] in Hlen. lia.
  - cbn [forallb] in Hlow. apply andb_true_iff in Hlow as [Hp Hlow].
    cbn [length] in Hlen. rewrite Nat2Z.inj_succ in Hlen.
    cbn [run]. unfold bind.
    destruct (Z.eq_dec tout 0) as [-> | Hne].
    + rewrite poll_low_fires by assumption.
      destruct pins; [reflexivity | cbn [length] in Hlen; lia].
    + rewrite poll_low_counts by (auto; lia).
      apply IH; auto; lia.
Qed.

Lemma run_low_pulses (n : nat) :
  forall pins tout s,
    uint16 (pulse_high s) -> uint16 (pulse_low s) ->
    forallb pin_low pins = true ->
    0 <= tout <= STUCK ->
    Z.of_nat (length pins) = tout + 1 + Z.of_nat n * (STUCK + 1) ->
    run LIMIT_PULSE_UP pins (MirroringLow, tout) s
    = Some ((MirroringLow, STUCK), pulsed_times (S n) s).
Proof.
  induction n as [| n IH]; intros pins tout s Hh Hl Hlow Ht Hlen.
  - apply run_low_first_pulse; auto; unfold STUCK in *; lia.
  - rewrite <- (firstn_skipn (Z.to_nat (tout + 1)) pins) in Hlow |- *.
    rewrite forallb_app in Hlow. apply andb_true_iff in Hlow as [Hl1 Hl2].
    assert (Hlen1 : Z.of_nat (length (firstn (Z.to_nat (tout + 1)) pins))
                    = tout + 1).
    { rewrite length_firstn. unfold STUCK in *. lia. }
    assert (Hlen2 : Z.of_nat (length (skipn (Z.to_nat (tout + 1)) pins))
                    = STUCK + 1 + Z.of_nat n * (STUCK + 1)).
    { rewrite length_skipn. unfold STUCK in *. lia. }
    rewrite run_app.
    rewrite run_low_first_pulse by (auto; unfold STUCK in *; lia).
    change (pulsed_times (S (S n)) s) with (pulsed_times (S n) (pulsed s)).
    apply IH; auto; unfold STUCK; lia.
Qed.

Lemma forallb_firstn {A : Type} (f : A -> bool) (k : nat) (l : list A) :
  forallb f l = true -> forallb f (firstn k l) = true.
Proof.
  intros H. rewrite <- (firstn_skipn k l), forallb_app in H.
  apply andb_true_iff in H. apply H.
Qed.

Lemma mirror_events_no_Nops (pins : list Z) :
  forall portb level,
    existsb is_Nops (mirror_events portb level pins) = false.
Proof.
  induction pins as [| p pins IH]; intros portb level; [reflexivity |].
  cbn [mirror_events].
  destruct (Bool.eqb (pin_high p) level); [apply IH |].
  cbn [existsb is_Nops orb]. apply IH.
Qed.

(** The invariant of an execution without timeout: the polling loop and
    the output pin agree with the level last read, and [tout] has lost no
    more than the number of reads that saw this level. *)
Lemma run_mirrors (pins : list Z) :
  forall level seen tout s,
    changes_in_time level seen pins = true ->
    out_high s = level -> 0 <= seen -> STUCK - seen <= tout <= STUCK ->
    exists st' s',
      run LIMIT_PULSE_UP pins (phase_of level, tout) s = Some (st', s') /\
      run_outputs LIMIT_PULSE_UP pins (phase_of level, tout) s
      = Some (map pin_high pins, s') /\
      trace s' = trace s ++ mirror_events (PORTB s) level pins.
Proof.
  induction pins as [| p pins IH]; intros level seen tout s Hc Ho Hs Ht.
  - exists (phase_of level, tout), s. cbn. unfold ret.
    rewrite app_nil_r. auto.
  - cbn [changes_in_time] in Hc. cbn [mirror_events run run_outputs map].
    unfold bind.
    destruct (Bool.eqb (pin_high p) level) eqn:E.
    + apply eqb_prop in E. apply andb_true_iff in Hc as [Hseen Hc].
      apply Z.leb_le in Hseen.
      assert (Hpos : 0 < tout < 2 ^ 16) by (unfold STUCK in *; lia).
      destruct level; cbn [phase_of].
      * rewrite poll_high_counts by assumption.
        destruct (IH true (seen + 1)
                    (if LIMIT_PULSE_UP then tout - 1 else tout) s)
          as (st' & s' & E1 & E2 & E3);
          [assumption | assumption | lia
          | destruct LIMIT_PULSE_UP; lia |].
        exists st', s'. cbn [phase_of] in E1, E2. rewrite E1.
        unfold get, bind. rewrite E2. unfold ret.
        rewrite Ho, E. auto.
      * assert (Hlow : pin_low p = true)
          by (unfold pin_high in E; unfold pin_low;
              apply negb_false_iff in E; exact E).
        rewrite poll_low_counts by assumption.
        destruct (IH false (seen + 1) (tout - 1) s)
          as (st' & s' & E1 & E2 & E3); [assumption | assumption | lia | lia |].
        exists st', s'. cbn [phase_of] in E1, E2. rewrite E1.
        unfold get, bind. rewrite E2. unfold ret.
        rewrite Ho, E. auto.
    + apply eqb_false_iff in E.
      assert (HS : STUCK - 1 <= STUCK <= STUCK) by (unfold STUCK; lia).
      destruct level; cbn [phase_of].
      * assert (Hp : pin_high p = false) by (destruct (pin_high p); congruence).
        rewrite Hp in *. rewrite poll_falling by exact Hp.
        match goal with
        | |- context [run _ pins _ ?s1] =>
            destruct (IH false 1 STUCK s1)
            as (st' & s' & E1 & E2 & E3);
            [assumption | apply bit_PB1_cleared | lia | exact HS |]
        end.
        exists st', s'. cbn [phase_of] in E1, E2. rewrite E1.
        unfold get, bind. rewrite E2. unfold ret.
        unfold out_high at 1. cbn [PORTB]. rewrite bit_PB1_cleared.
        cbn [trace PORTB] in E3. rewrite E3, <- app_assoc. auto.
      * assert (Hp : pin_high p = true) by (destruct (pin_high p); congruence).
        rewrite Hp in *. rewrite poll_rising by exact Hp.
        match goal with
        | |- context [run _ pins _ ?s1] =>
            destruct (IH true 1 STUCK s1)
            as (st' & s' & E1 & E2 & E3);
            [assumption | apply bit_PB1_set | lia | exact HS |]
        end.
        exists st', s'. cbn [phase_of] in E1, E2. rewrite E1.
        unfold get, bind. rewrite E2. unfold ret.
        unfold out_high at 1. cbn [PORTB]. rewrite bit_PB1_set.
        cbn [trace PORTB] in E3. rewrite E3, <- app_assoc. auto.
Qed.

End PollFacts.

(** ** The watchdog loop on a low input *)

(** C1: while the input reads low, the read that finds [tout] at 0 sends the
    substitute pulse (PB1 high, [pulse_high] passes of the busy loop, PB1
    low, [pulse_low] passes) and sets [tout] back to [STUCK].  From any
    [tout] up to [STUCK] the first pulse comes at read [tout + 1], and one
    more every [STUCK + 1] reads after it. *)
Theorem low_input_is_pulsed
  (LIMIT_PULSE_UP : bool) (s : mcu) (tout : Z) (n : nat) (pins : list Z) :
  uint16 (pulse_high s) -> uint16 (pulse_low s) ->
  0 <= tout <= STUCK ->
  forallb pin_low pins = true ->
  Z.of_nat (length pins) = tout + 1 + Z.of_nat n * (STUCK + 1) ->
  run LIMIT_PULSE_UP pins (MirroringLow, tout) s
  = Some ((MirroringLow, STUCK), pulsed_times (S n) s) /\
  forall s0, exists high low,
    trace (pulsed s0)
    = trace s0 ++ [Out high; Nops (pulse_high s0); Out low;
                   Nops (pulse_low s0)] /\
    Z.testbit high PB1 = true /\ Z.testbit low PB1 = false /\
    out_high (pulsed s0) = false.
Proof.
  intros Hh Hl Ht Hlow Hlen. split.
  - apply run_low_pulses; assumption.
  - intros s0. do 2 eexists. split; [reflexivity |].
    split; [apply bit_PB1_set |].
    split; apply bit_PB1_cleared.
Qed.

Lemma low_input_is_pulsed_witness :
  (uint16 (pulse_high (MkMcu 1 2 10 33 3169 [])) /\
   uint16 (pulse_low (MkMcu 1 2 10 33 3169 [])) /\
   0 <= 1 <= STUCK /\
   forallb pin_low (repeat 0 4003) = true /\
   Z.of_nat (length (repeat 0 4003)) = 1 + 1 + Z.of_nat 1 * (STUCK + 1)) /\
  run false (repeat 0 4003) (MirroringLow, 1) (MkMcu 1 2 10 33 3169 [])
  = Some ((MirroringLow, STUCK),
          pulsed_times 2 (MkMcu 1 2 10 33 3169 [])).
Proof.
  assert (H : uint16 (pulse_high (MkMcu 1 2 10 33 3169 [])) /\
              uint16 (pulse_low (MkMcu 1 2 10 33 3169 [])) /\
              0 <= 1 <= STUCK /\
              forallb pin_low (repeat 0 4003) = true /\
              Z.of_nat (length (repeat 0 4003))
              = 1 + 1 + Z.of_nat 1 * (STUCK + 1)).
  { unfold uint16, STUCK; cbn [pulse_high pulse_low].
    repeat split; try lia; vm_compute; reflexivity. }
  split; [exact H |].
  destruct H as (H1 & H2 & H3 & H4 & H5).
  exact (proj1 (low_input_is_pulsed false (MkMcu 1 2 10 33 3169 []) 1 1
                  (repeat 0 4003) H1 H2 H3 H4 H5)).
Defined.

(** C10: [loop()] enters its first polling loop with [tout = STUCK].  While
    the input reads low, the first [STUCK] reads only count [tout] down, to
    0 at read [STUCK], and send nothing; read [STUCK + 1] finds 0 and sends
    the pulse, and leaves [tout = STUCK] although the decrement of that read
    gave [wrap16 (0 - 1) = 65535].  Whatever is read afterwards, [tout] is
    between 0 and [STUCK] at every later read. *)
Theorem pulse_at_read_STUCK_plus_1
  (LIMIT_PULSE_UP : bool) (s : mcu) (pins more : list Z) (k : Z) :
  uint16 (pulse_high s) -> uint16 (pulse_low s) ->
  forallb pin_low pins = true ->
  Z.of_nat (length pins) = STUCK + 1 ->
  0 <= k <= STUCK ->
  run LIMIT_PULSE_UP (firstn (Z.to_nat k) pins) loop_entry s
  = Some ((MirroringLow, STUCK - k), s) /\
  run LIMIT_PULSE_UP pins loop_entry s
  = Some ((MirroringLow, STUCK), pulsed s) /\
  wrap16 (0 - 1) = 65535 /\
  exists st' s',
    run LIMIT_PULSE_UP (pins ++ more) loop_entry s = Some (st', s') /\
    0 <= snd st' <= STUCK.
Proof.
  intros Hh Hl Hlow Hlen Hk. unfold loop_entry.
  assert (HS : 0 <= STUCK <= STUCK) by (unfold STUCK; lia).
  split; [| split; [| split]].
  - rewrite run_low_counts.
    + rewrite length_firstn. do 3 f_equal. lia.
    + apply forallb_firstn, Hlow.
    + rewrite length_firstn. unfold STUCK in *. lia.
  - apply run_low_first_pulse; auto; unfold STUCK in *; lia.
  - reflexivity.
  - destruct (run_total LIMIT_PULSE_UP (pins ++ more) (MirroringLow, STUCK) s)
      as (st' & s' & E & Ht & _); auto.
    exists st', s'. auto.
Qed.

Lemma pulse_at_read_STUCK_plus_1_witness :
  (uint16 (pulse_high (MkMcu 1 2 10 33 3169 [])) /\
   uint16 (pulse_low (MkMcu 1 2 10 33 3169 [])) /\
   forallb pin_low (repeat 0 4001) = true /\
   Z.of_nat (length (repeat 0 4001)) = STUCK + 1 /\
   0 <= 4000 <= STUCK) /\
  run true (firstn (Z.to_nat 4000) (repeat 0 4001)) loop_entry
      (MkMcu 1 2 10 33 3169 [])
  = Some ((MirroringLow, STUCK - 4000), MkMcu 1 2 10 33 3169 []) /\
  run true (repeat 0 4001) loop_entry (MkMcu 1 2 10 33 3169 [])
  = Some ((MirroringLow, STUCK), pulsed (MkMcu 1 2 10 33 3169 [])).
Proof.
  assert (H : uint16 (pulse_high (MkMcu 1 2 10 33 3169 [])) /\
              uint16 (pulse_low (MkMcu 1 2 10 33 3169 [])) /\
              forallb pin_low (repeat 0 4001) = true /\
              Z.of_nat (length (repeat 0 4001)) = STUCK + 1 /\
              0 <= 4000 <= STUCK).
  { unfold uint16, STUCK; cbn [pulse_high pulse_low].
    repeat split; try lia; vm_compute; reflexivity. }
  split; [exact H |].
  destruct H as (H1 & H2 & H3 & H4 & H5).
  destruct (pulse_at_read_STUCK_plus_1 true (MkMcu 1 2 10 33 3169 [])
              (repeat 0 4001) [1] 4000 H1 H2 H3 H4 H5) as (Ha & Hb & _).
  split; [exact Ha | exact Hb].
Defined.

(** ** Mirroring *)

(** C5: when no more than [STUCK] successive reads see the same input level,
    the output pin has after every read the level just read, the program
    stores to [PORTB] only when the level read changes, and it runs no busy
    loop: no substitute pulse.  This holds with and without
    [LIMIT_PULSE_UP]. *)
Theorem output_mirrors_input
  (LIMIT_PULSE_UP : bool) (s : mcu) (pins : list Z) :
  changes_in_time false 0 pins = true ->
  out_high s = false ->
  exists st' s',
    run LIMIT_PULSE_UP pins loop_entry s = Some (st', s') /\
    run_outputs LIMIT_PULSE_UP pins loop_entry s
    = Some (map pin_high pins, s') /\
    trace s' = trace s ++ mirror_events (PORTB s) false pins /\
    existsb is_Nops (mirror_events (PORTB s) false pins) = false.
Proof.
  intros Hc Ho.
  destruct (run_mirrors LIMIT_PULSE_UP pins false 0 STUCK s)
    as (st' & s' & E1 & E2 & E3); [assumption | assumption | lia | lia |].
  exists st', s'. repeat split; try assumption.
  apply mirror_events_no_Nops.
Qed.

Lemma output_mirrors_input_witness :
  (changes_in_time false 0 [0; 1; 1; 0; 1] = true /\
   out_high (MkMcu 1 2 10 33 3169 []) = false) /\
  exists st' s',
    run true [0; 1; 1; 0; 1] loop_entry (MkMcu 1 2 10 33 3169 [])
    = Some (st', s') /\
    run_outputs true [0; 1; 1; 0; 1] loop_entry (MkMcu 1 2 10 33 3169 [])
    = Some ([false; true; true; false; true], s') /\
    trace s' = [Out 3; Out 1; Out 3].
Proof.
  assert (H : changes_in_time false 0 [0; 1; 1; 0; 1] = true /\
              out_high (MkMcu 1 2 10 33 3169 []) = false).
  { split; vm_compute; reflexivity. }
  split; [exact H |].
  destruct (output_mirrors_input true (MkMcu 1 2 10 33 3169 [])
              [0; 1; 1; 0; 1] (proj1 H) (proj2 H))
    as (st' & s' & E1 & E2 & E3 & _).
  exists st', s'. repeat split; assumption.
Defined.

(** ** The high phase without [LIMIT_PULSE_UP] *)

Lemma run_high_idle (pins : list Z) (tout : Z) (s : mcu) :
  forallb pin_high pins = true ->
  run false pins (MirroringHigh, tout) s = Some ((MirroringHigh, tout), s) /\
  run_outputs false pins (MirroringHigh, tout) s
  = Some (repeat (out_high s) (length pins), s).
Proof.
  induction pins as [| p pins IH]; intros Hhigh; [split; reflexivity |].
  cbn [forallb] in Hhigh. apply andb_true_iff in Hhigh as [Hp Hhigh].
  destruct (IH Hhigh) as [E1 E2].
  assert (Ep : poll false p (MirroringHigh, tout) s
               = Some ((MirroringHigh, tout), s)).
  { unfold poll. fold (pin_high p). rewrite Hp. reflexivity. }
  cbn [run run_outputs length repeat]. unfold bind.
  rewrite Ep, E1. unfold get. rewrite E2. split; reflexivity.
Qed.

(** C8: in a build without [LIMIT_PULSE_UP], while the input reads high the
    second polling loop changes nothing: not the port, not [tout], and the
    trace gets no event, however many reads there are.  Entered from the
    first polling loop on a high read, it keeps PB1 high. *)
Theorem high_phase_only_polls
  (s : mcu) (tout : Z) (pinb : Z) (pins : list Z) :
  pin_high pinb = true ->
  forallb pin_high pins = true ->
  run false pins (MirroringHigh, tout) s = Some ((MirroringHigh, tout), s) /\
  exists s1,
    poll false pinb (MirroringLow, tout) s = Some ((MirroringHigh, STUCK), s1) /\
    out_high s1 = true /\
    run false (pinb :: pins) (MirroringLow, tout) s
    = Some ((MirroringHigh, STUCK), s1) /\
    run_outputs false (pinb :: pins) (MirroringLow, tout) s
    = Some (repeat true (length (pinb :: pins)), s1).
Proof.
  intros Hp Hhigh. split; [apply run_high_idle, Hhigh |].
  eexists. split; [apply poll_rising, Hp |].
  assert (Ho : forall v d i h l t,
             out_high (MkMcu (wrap8 (Z.lor v (_BV PB1))) d i h l t) = true)
    by (intros; apply bit_PB1_set).
  split; [apply Ho |].
  cbn [run run_outputs length repeat]. unfold bind.
  rewrite poll_rising by exact Hp.
  match goal with
  | |- context [run false pins _ ?s1] =>
      destruct (run_high_idle pins STUCK s1 Hhigh) as [E1 E2]
  end.
  rewrite E1. unfold get. rewrite E2, !Ho. split; reflexivity.
Qed.

Lemma high_phase_only_polls_witness :
  (pin_high 1 = true /\ forallb pin_high (repeat 1 5000) = true) /\
  run false (repeat 1 5000) (MirroringHigh, STUCK) (MkMcu 3 2 10 33 3169 [])
  = Some ((MirroringHigh, STUCK), MkMcu 3 2 10 33 3169 []).
Proof.
  assert (H : pin_high 1 = true /\ forallb pin_high (repeat 1 5000) = true).
  { split; vm_compute; reflexivity. }
  split; [exact H |].
  exact (proj1 (high_phase_only_polls (MkMcu 3 2 10 33 3169 []) STUCK 1
                  (repeat 1 5000) (proj1 H) (proj2 H))).
Defined.

(** With [LIMIT_PULSE_UP] the same reads do inject: the high read that finds
    [tout] at 0 sends the pulse. *)
Lemma high_phase_pulsed_with_LIMIT_PULSE_UP :
  run true (repeat 1 4001) (MirroringHigh, STUCK) (MkMcu 3 2 10 33 3169 [])
  = Some ((MirroringHigh, STUCK), pulsed (MkMcu 3 2 10 33 3169 [])).
Proof. vm_compute. reflexivity. Qed.

(** ** Test mode *)

Lemma setup_total (F_CPU : Z) (s : mcu) :
  exists s0, setup F_CPU s = Some (tt, s0) /\ out_high s0 = false.
Proof.
  unfold setup, bind, store_DDRB, PORTB_or, PORTB_and_not, eeprom_read_byte,
    store_pulse_high, store_pulse_low, store_PORTB, get, ret, bind;
    cbn [PORTB DDRB intensity pulse_high pulse_low trace].
  destruct (wrap16 (intensity s) =? 255);
    (eexists; split; [reflexivity | apply bit_PB1_cleared]).
Qed.

(** [setup] hands the loop a state that meets the conditions of the loop
    properties: PB1 low and both pulse widths 16-bit values. *)
Lemma setup_ready (F_CPU : Z) (s : mcu) :
  exists s0,
    setup F_CPU s = Some (tt, s0) /\ out_high s0 = false /\
    uint16 (pulse_high s0) /\ uint16 (pulse_low s0).
Proof.
  unfold setup, bind, store_DDRB, PORTB_or, PORTB_and_not, eeprom_read_byte,
    store_pulse_high, store_pulse_low, store_PORTB, get, ret, bind;
    cbn [PORTB DDRB intensity pulse_high pulse_low trace].
  assert (Hw : forall x, uint16 (wrap16 x))
    by (intros x; unfold uint16, wrap16; apply Z.mod_pos_bound; lia).
  destruct (wrap16 (intensity s) =? 255);
    (eexists; split; [reflexivity |]; split; [apply bit_PB1_cleared |];
     cbn [pulse_high pulse_low]; split; apply Hw).
Qed.

Lemma test_iteration_runs (F_CPU : Z) (s : mcu) :
  test_iteration F_CPU s
  = Some (tt, MkMcu (wrap8 (Z.lxor (PORTB s) (_BV PB1))) (DDRB s)
                    (intensity s) (pulse_high s) (pulse_low s)
                    (trace s ++ [Nops (us2loops F_CPU 500);
                                 Out (wrap8 (Z.lxor (PORTB s) (_BV PB1)))])).
Proof.
  unfold test_iteration, delay_us, bind.
  rewrite delay_runs by apply us2loops_uint16.
  unfold PORTB_xor, bind, get, store_PORTB.
  cbn [PORTB DDRB intensity pulse_high pulse_low trace].
  rewrite <- app_assoc. reflexivity.
Qed.

Lemma rounds_test_iteration (F_CPU : Z) (n : nat) :
  forall s, exists s',
    rounds n (test_iteration F_CPU) s = Some (tt, s') /\
    trace s' = trace s ++ square_wave n (us2loops F_CPU 500) (PORTB s) /\
    out_high s' = xorb (out_high s) (Nat.odd n).
Proof.
  induction n as [| n IH]; intros s.
  - exists s. cbn [rounds square_wave]. unfold ret.
    rewrite app_nil_r, xorb_false_r. auto.
  - cbn [rounds square_wave]. unfold bind. rewrite test_iteration_runs.
    match goal with
    | |- context [rounds n _ ?s1] => destruct (IH s1) as (s' & E1 & E2 & E3)
    end.
    exists s'. rewrite E1. split; [reflexivity |].
    cbn [trace PORTB] in E2. rewrite E2, <- app_assoc. split; [reflexivity |].
    rewrite E3. unfold out_high at 1. cbn [PORTB]. rewrite bit_PB1_toggled.
    fold (out_high s). rewrite Nat.odd_succ, <- Nat.negb_odd.
    destruct (out_high s), (Nat.odd n); reflexivity.
Qed.

(** C9: built with [TEST], [main] runs [setup], which leaves PB1 low, and
    then every round of its loop runs the busy loop [us2loops 500] times and
    toggles PB1: after [n] rounds PB1 is high exactly when [n] is odd, and
    the levels last the same [us2loops 500] passes each. *)
Theorem test_mode_square_wave (F_CPU : Z) (s : mcu) (n : nat) :
  exists s0 s',
    setup F_CPU s = Some (tt, s0) /\ out_high s0 = false /\
    main_test F_CPU n s = Some (tt, s') /\
    trace s' = trace s0 ++ square_wave n (us2loops F_CPU 500) (PORTB s0) /\
    out_high s' = Nat.odd n /\
    forall s1, exists s2,
      test_iteration F_CPU s1 = Some (tt, s2) /\
      trace s2 = trace s1 ++ [Nops (us2loops F_CPU 500); Out (PORTB s2)] /\
      out_high s2 = negb (out_high s1).
Proof.
  destruct (setup_total F_CPU s) as (s0 & E0 & Ho).
  destruct (rounds_test_iteration F_CPU n s0) as (s' & E1 & E2 & E3).
  exists s0, s'. unfold main_test, bind. rewrite E0, E1.
  repeat split; try assumption.
  - rewrite E3, Ho. apply xorb_false_l.
  - intros s1. eexists. rewrite test_iteration_runs.
    split; [reflexivity |]. split; [reflexivity |].
    apply bit_PB1_toggled.
Qed.

(** The first three rounds at 16 MHz, from a cleared port. *)
Example test_mode_16MHz :
  match main_test 16000000 3 (MkMcu 0 0 255 0 0 []) with
  | Some (_, s') =>
      trace s' = [Out 1; Out 1; Nops 1601; Out 3; Nops 1601; Out 1;
                  Nops 1601; Out 3]
  | None => False
  end.
Proof. vm_compute. reflexivity. Qed.

(** ** Further properties of the timing primitives *)

Lemma wrap8_testbit (x i : Z) :
  0 <= i ->
  Z.testbit (wrap8 x) i = if i <? 8 then Z.testbit x i else false.
Proof.
  intros Hi. unfold wrap8. destruct (i <? 8) eqn:E.
  - apply Z.ltb_lt in E. apply Z.mod_pow2_bits_low. lia.
  - apply Z.ltb_ge in E. apply Z.mod_pow2_bits_high. lia.
Qed.

Lemma byte_high_bits (v i : Z) :
  0 <= v < 2 ^ 8 -> 8 <= i -> Z.testbit v i = false.
Proof.
  intros Hv Hi. rewrite <- (Z.mod_small v (2 ^ 8)) by lia.
  apply Z.mod_pow2_bits_high. lia.
Qed.

Lemma wrap8_range (x : Z) : 0 <= wrap8 x < 2 ^ 8.
Proof. unfold wrap8. apply Z.mod_pos_bound. lia. Qed.

Lemma _BV_testbit (port i : Z) :
  0 <= port -> Z.testbit (_BV port) i = (port =? i).
Proof.
  intros Hp. unfold _BV. rewrite Z.shiftl_1_l. apply Z.pow2_bits_eqb, Hp.
Qed.

Lemma bit_set_spec (port v i : Z) :
  0 <= port < 8 -> 0 <= v < 2 ^ 8 -> 0 <= i ->
  Z.testbit (wrap8 (Z.lor v (_BV port))) i
  = if i =? port then true else Z.testbit v i.
Proof.
  intros Hp Hv Hi. rewrite wrap8_testbit, Z.lor_spec, _BV_testbit by lia.
  rewrite (Z.eqb_sym port i).
  destruct (i =? port) eqn:E.
  - apply Z.eqb_eq in E. subst i.
    replace (port <? 8) with true by (symmetry; apply Z.ltb_lt; lia).
    apply orb_true_r.
  - rewrite orb_false_r. destruct (i <? 8) eqn:E8; [reflexivity |].
    apply Z.ltb_ge in E8. symmetry. apply byte_high_bits; assumption.
Qed.

Lemma bit_clear_spec (port v i : Z) :
  0 <= port < 8 -> 0 <= v < 2 ^ 8 -> 0 <= i ->
  Z.testbit (wrap8 (Z.land v (Z.lnot (_BV port)))) i
  = if i =? port then false else Z.testbit v i.
Proof.
  intros Hp Hv Hi.
  rewrite wrap8_testbit, Z.land_spec, Z.lnot_spec, _BV_testbit by lia.
  rewrite (Z.eqb_sym port i).
  destruct (i =? port) eqn:E.
  - cbn [negb]. rewrite andb_false_r. destruct (i <? 8); reflexivity.
  - cbn [negb]. rewrite andb_true_r. destruct (i <? 8) eqn:E8; [reflexivity |].
    apply Z.ltb_ge in E8. symmetry. apply byte_high_bits; assumption.
Qed.

(** X1: [delay] with any 16-bit count ends, after exactly that many passes
    through the empty statement: none for 0, and 65535 for 65535, where the
    counter wraps at the last test.  It changes nothing else. *)
Theorem delay_passes (loops : Z) (s : mcu) :
  uint16 loops ->
  delay loops s = Some (tt, MkMcu (PORTB s) (DDRB s) (intensity s)
                                  (pulse_high s) (pulse_low s)
                                  (trace s ++ [Nops loops])) /\
  spin spin_fuel 0 0 = Some 0 /\
  spin spin_fuel 65535 0 = Some 65535.
Proof.
  intros Hl. split; [apply delay_runs, Hl |].
  assert (Hfuel : Z.of_nat spin_fuel = 2 ^ 16)
    by (unfold spin_fuel; rewrite Z2Nat.id; lia).
  split; rewrite spin_runs; try reflexivity; lia.
Qed.

Lemma delay_passes_witness :
  uint16 3169 /\
  delay 3169 (MkMcu 1 2 10 33 3169 [])
  = Some (tt, MkMcu 1 2 10 33 3169 [Nops 3169]).
Proof.
  assert (H : uint16 3169) by (unfold uint16; lia).
  split; [exact H |].
  exact (proj1 (delay_passes 3169 (MkMcu 1 2 10 33 3169 []) H)).
Defined.

(** X2: [send_pulse] on a port bit 0..7 stores twice to [PORTB], first with
    the bit set and then with the bit cleared, with [width] passes of the
    busy loop in between.  The other seven bits keep their value in both
    stores, so the pull-up on PB0 is not touched, and the bit ends cleared
    whatever it was before. *)
Theorem send_pulse_touches_one_bit (port width : Z) (s : mcu) :
  0 <= port < 8 -> uint16 width -> 0 <= PORTB s < 2 ^ 8 ->
  exists high low s',
    send_pulse port width s = Some (tt, s') /\
    trace s' = trace s ++ [Out high; Nops width; Out low] /\
    PORTB s' = low /\
    Z.testbit high port = true /\ Z.testbit low port = false /\
    (forall i, 0 <= i -> i <> port ->
               Z.testbit high i = Z.testbit (PORTB s) i /\
               Z.testbit low i = Z.testbit (PORTB s) i) /\
    only_bit_changed port s s'.
Proof.
  intros Hp Hw Hv.
  set (high := wrap8 (Z.lor (PORTB s) (_BV port))).
  set (low := wrap8 (Z.land high (Z.lnot (_BV port)))).
  assert (Hhigh : 0 <= high < 2 ^ 8) by apply wrap8_range.
  assert (Hbits : forall i, 0 <= i -> i <> port ->
                    Z.testbit high i = Z.testbit (PORTB s) i /\
                    Z.testbit low i = Z.testbit (PORTB s) i).
  { intros i Hi Hne. unfold low.
    rewrite bit_clear_spec by assumption. unfold high.
    rewrite bit_set_spec by assumption.
    replace (i =? port) with false by (symmetry; apply Z.eqb_neq; exact Hne).
    split; reflexivity. }
  exists high, low,
    (MkMcu low (DDRB s) (intensity s) (pulse_high s) (pulse_low s)
           (trace s ++ [Out high; Nops width; Out low])).
  split.
  { unfold send_pulse, bind, PORTB_or, PORTB_and_not, get, bind.
    unfold store_PORTB at 1. rewrite busy_wait_runs by exact Hw.
    unfold log, store_PORTB.
    cbn [PORTB DDRB intensity pulse_high pulse_low trace].
    rewrite <- !app_assoc. reflexivity. }
  split; [reflexivity |]. split; [reflexivity |].
  split.
  { unfold high. rewrite bit_set_spec by lia. rewrite Z.eqb_refl. reflexivity. }
  split.
  { unfold low. rewrite bit_clear_spec by lia. rewrite Z.eqb_refl.
    reflexivity. }
  split; [exact Hbits |].
  unfold only_bit_changed; cbn [PORTB DDRB intensity pulse_high pulse_low trace].
  repeat split; try apply wrap8_range.
  - intros i Hi Hne. apply Hbits; assumption.
  - eexists. reflexivity.
Qed.

Lemma send_pulse_touches_one_bit_witness :
  (0 <= PB1 < 8 /\ uint16 33 /\ 0 <= PORTB (MkMcu 1 2 10 33 3169 []) < 2 ^ 8)
  /\ exists high low s',
    send_pulse PB1 33 (MkMcu 1 2 10 33 3169 []) = Some (tt, s') /\
    trace s' = [] ++ [Out high; Nops 33; Out low] /\
    PORTB s' = low.
Proof.
  assert (H : 0 <= PB1 < 8 /\ uint16 33 /\
              0 <= PORTB (MkMcu 1 2 10 33 3169 []) < 2 ^ 8).
  { unfold uint16, PB1; cbn [PORTB]. lia. }
  split; [exact H |].
  destruct H as (H1 & H2 & H3).
  destruct (send_pulse_touches_one_bit PB1 33 (MkMcu 1 2 10 33 3169 [])
              H1 H2 H3) as (high & low & s' & E1 & E2 & E3 & _).
  exists high, low, s'. repeat split; assumption.
Defined.

(** X3: [delay_us] and [send_pulse_us] cannot hang, whatever the clock and
    the number of microseconds asked for, in range or not: [us2loops]
    returns a 16-bit count and the busy loop ends on every such count.  The
    loop runs [us2loops us] times, on PB1 between a store with the bit set
    and a store with the bit cleared. *)
Theorem microsecond_primitives_end (F_CPU us : Z) (s : mcu) :
  exists s1 s2 high low,
    delay_us F_CPU us s = Some (tt, s1) /\
    trace s1 = trace s ++ [Nops (us2loops F_CPU us)] /\
    PORTB s1 = PORTB s /\
    send_pulse_us F_CPU PB1 us s = Some (tt, s2) /\
    trace s2 = trace s ++ [Out high; Nops (us2loops F_CPU us); Out low] /\
    Z.testbit high PB1 = true /\ Z.testbit low PB1 = false /\
    PORTB s2 = low.
Proof.
  unfold delay_us, send_pulse_us.
  rewrite delay_runs by apply us2loops_uint16.
  rewrite send_pulse_runs by apply us2loops_uint16.
  do 4 eexists. split; [reflexivity |]. cbn [trace PORTB].
  split; [reflexivity |]. split; [reflexivity |].
  split; [reflexivity |]. split; [reflexivity |].
  split; [apply bit_PB1_set |]. split; [apply bit_PB1_cleared | reflexivity].
Qed.

Lemma us2loops_split_bounds (F_CPU a b : Z) :
  0 <= a -> 0 <= b -> fits_loops F_CPU (a + b) ->
  us2loops F_CPU (a + b)
  <= us2loops F_CPU a + us2loops F_CPU b
  <= us2loops F_CPU (a + b) + 1.
Proof.
  intros Ha Hb Hfit.
  rewrite (us2loops_exact F_CPU a)
    by (apply (fits_loops_le F_CPU _ (a + b)); [lia | assumption]).
  rewrite (us2loops_exact F_CPU b)
    by (apply (fits_loops_le F_CPU _ (a + b)); [lia | assumption]).
  rewrite (us2loops_exact F_CPU (a + b)) by assumption.
  destruct Hfit as (_ & Hf & _).
  assert (Hk : 0 <= F_CPU / 100000) by (apply Z.div_pos; lia).
  set (k := F_CPU / 100000) in *.
  replace ((a + b) * k) with (a * k + b * k) by ring.
  assert (0 <= a * k) by nia. assert (0 <= b * k) by nia.
  lia.
Qed.

(** X4: splitting a duration in two costs at most one loop: while the sum is
    in the range of the formula, the loops of [a] and of [b] together are
    the loops of [a + b], or one more. *)
Theorem us2loops_split (F_CPU a b : Z) :
  0 <= a -> 0 <= b -> fits_loops F_CPU (a + b) ->
  us2loops F_CPU (a + b)
  <= us2loops F_CPU a + us2loops F_CPU b
  <= us2loops F_CPU (a + b) + 1.
Proof. apply us2loops_split_bounds. Qed.

Lemma us2loops_split_witness :
  (0 <= 10 /\ 0 <= 990 /\ fits_loops 16000000 (10 + 990)) /\
  us2loops 16000000 (10 + 990)
  <= us2loops 16000000 10 + us2loops 16000000 990
  <= us2loops 16000000 (10 + 990) + 1.
Proof.
  assert (H : 0 <= 10 /\ 0 <= 990 /\ fits_loops 16000000 (10 + 990)).
  { unfold fits_loops; cbn; lia. }
  split; [exact H |].
  destruct H as (H1 & H2 & H3).
  exact (us2loops_split 16000000 10 990 H1 H2 H3).
Defined.

(** X5: at the two clocks the source names for the larger parts, 16 MHz and
    8 MHz, [us2loops] never returns 0, for any 16-bit input, in the range of
    the formula or beyond it: no [delay_us] collapses to no wait. *)
Theorem us2loops_never_zero_16MHz_8MHz (us : Z) :
  0 <= us < 2 ^ 16 ->
  1 <= us2loops 16000000 us /\ 1 <= us2loops 8000000 us.
Proof.
  intros Hus. split.
  - apply us2loops_16MHz_nonzero, Hus.
  - apply us2loops_8MHz_nonzero, Hus.
Qed.

Lemma us2loops_never_zero_16MHz_8MHz_witness :
  0 <= 65535 < 2 ^ 16 /\
  1 <= us2loops 16000000 65535 /\ 1 <= us2loops 8000000 65535.
Proof.
  assert (H : 0 <= 65535 < 2 ^ 16) by lia.
  split; [exact H |].
  exact (us2loops_never_zero_16MHz_8MHz 65535 H).
Defined.

(** ** Further properties of [setup] *)

(** X6: [setup] makes PB1 the only output, enables the pull-up on PB0,
    leaves PB1 low, and keeps the other six bits of [PORTB] and the EEPROM
    byte as they were.  Its two stores to [PORTB] are the only events. *)
Theorem setup_configures_port (F_CPU : Z) (s : mcu) :
  0 <= PORTB s < 2 ^ 8 ->
  exists s' first,
    setup F_CPU s = Some (tt, s') /\
    DDRB s' = 2 /\
    Z.testbit (PORTB s') PB0 = true /\
    Z.testbit (PORTB s') PB1 = false /\
    (forall i, 0 <= i -> i <> PB0 -> i <> PB1 ->
               Z.testbit (PORTB s') i = Z.testbit (PORTB s) i) /\
    intensity s' = intensity s /\
    trace s' = trace s ++ [Out first; Out (PORTB s')].
Proof.
  intros Hv.
  assert (Hset : forall i, 0 <= i ->
            Z.testbit (wrap8 (Z.land (wrap8 (Z.lor (PORTB s) (_BV PB0)))
                                     (Z.lnot (_BV PB1)))) i
            = if i =? PB1 then false
              else if i =? PB0 then true else Z.testbit (PORTB s) i).
  { intros i Hi.
    rewrite bit_clear_spec by (try apply wrap8_range; unfold PB1; lia).
    rewrite bit_set_spec by (unfold PB0; lia). reflexivity. }
  unfold setup, bind, store_DDRB, PORTB_or, PORTB_and_not, eeprom_read_byte,
    store_pulse_high, store_pulse_low, store_PORTB, get, ret, bind;
    cbn [PORTB DDRB intensity pulse_high pulse_low trace].
  destruct (wrap16 (intensity s) =? 255);
    (do 2 eexists; split; [reflexivity |];
     cbn [PORTB DDRB intensity pulse_high pulse_low trace];
     split; [reflexivity |];
     split; [rewrite Hset by (unfold PB0; lia); reflexivity |];
     split; [rewrite Hset by (unfold PB1; lia); reflexivity |];
     split; [intros i Hi H0 H1; rewrite Hset by exact Hi;
             replace (i =? PB1) with false
               by (symmetry; apply Z.eqb_neq; exact H1);
             replace (i =? PB0) with false
               by (symmetry; apply Z.eqb_neq; exact H0);
             reflexivity |];
     split; [reflexivity |];
     rewrite <- app_assoc; reflexivity).
Qed.

Lemma setup_configures_port_witness :
  0 <= PORTB (MkMcu 0 0 10 0 0 []) < 2 ^ 8 /\
  exists s',
    setup 16000000 (MkMcu 0 0 10 0 0 []) = Some (tt, s') /\ DDRB s' = 2.
Proof.
  assert (H : 0 <= PORTB (MkMcu 0 0 10 0 0 []) < 2 ^ 8) by (cbn; lia).
  split; [exact H |].
  destruct (setup_configures_port 16000000 (MkMcu 0 0 10 0 0 []) H)
    as (s' & first & E & Hd & _).
  exists s'. split; assumption.
Defined.

(** X7: for every EEPROM byte, 255 included, the two widths [setup]
    computes add up to the loops of 1000 microseconds, or one loop more,
    while 1000 microseconds are in the range of the formula: the period of
    a substitute pulse does not depend on the intensity. *)
Theorem setup_period_is_1000us (F_CPU : Z) (s : mcu) :
  0 <= intensity s <= 255 -> fits_loops F_CPU 1000 ->
  exists s',
    setup F_CPU s = Some (tt, s') /\
    us2loops F_CPU 1000 <= pulse_high s' + pulse_low s'
    <= us2loops F_CPU 1000 + 1.
Proof.
  intros Hraw Hfit. exists (calibrated F_CPU s).
  rewrite setup_calibrated by exact Hraw. split; [reflexivity |].
  unfold calibrated; cbn [pulse_high pulse_low].
  set (raw := if intensity s =? 255 then 5 else intensity s).
  assert (Hr : 0 <= raw <= 254).
  { unfold raw. destruct (intensity s =? 255) eqn:E; [lia |].
    apply Z.eqb_neq in E. lia. }
  replace (wrap16 (1000 - raw)) with (1000 - raw)
    by (unfold wrap16; rewrite Z.mod_small; lia).
  replace 1000 with (raw + (1000 - raw)) at 1 4 by ring.
  apply us2loops_split_bounds; try lia.
  replace (raw + (1000 - raw)) with 1000 by ring. exact Hfit.
Qed.

Lemma setup_period_is_1000us_witness :
  (0 <= intensity (MkMcu 0 0 255 0 0 []) <= 255 /\
   fits_loops 9600000 1000) /\
  exists s',
    setup 9600000 (MkMcu 0 0 255 0 0 []) = Some (tt, s') /\
    us2loops 9600000 1000 <= pulse_high s' + pulse_low s'
    <= us2loops 9600000 1000 + 1.
Proof.
  assert (H : 0 <= intensity (MkMcu 0 0 255 0 0 []) <= 255 /\
              fits_loops 9600000 1000).
  { unfold fits_loops; cbn; lia. }
  split; [exact H |].
  exact (setup_period_is_1000us 9600000 (MkMcu 0 0 255 0 0 [])
           (proj1 H) (proj2 H)).
Defined.

(** ** Further properties of the watchdog loop *)

(** What one poll can do: nothing but count, send the pulse on [tout = 0],
    or copy an edge with one store to [PORTB]. *)
Lemma poll_cases (LIMIT_PULSE_UP : bool) (pinb : Z) (st : loop_state)
  (s : mcu) :
  uint16 (pulse_high s) -> uint16 (pulse_low s) -> 0 <= snd st <= STUCK ->
  exists st' s',
    poll LIMIT_PULSE_UP pinb st s = Some (st', s') /\
    0 <= snd st' <= STUCK /\
    ((s' = s /\ fst st' = fst st /\ snd st - 1 <= snd st' <= snd st /\
      fst st = phase_of (pin_high pinb) /\
      (fst st = MirroringLow -> snd st' = snd st - 1)) \/
     (snd st = 0 /\ s' = pulsed s /\ st' = (fst st, STUCK) /\
      fst st = phase_of (pin_high pinb) /\
      (fst st = MirroringHigh -> LIMIT_PULSE_UP = true)) \/
     (snd st' = STUCK /\ fst st = MirroringLow /\ pin_high pinb = true /\
      fst st' = MirroringHigh /\
      s' = stored (Z.lor (PORTB s) (_BV PB1)) s) \/
     (snd st' = STUCK /\ fst st = MirroringHigh /\ pin_high pinb = false /\
      fst st' = MirroringLow /\
      s' = stored (Z.land (PORTB s) (Z.lnot (_BV PB1))) s)).
Proof.
  intros Hh Hl Ht. destruct st as [pc tout]. cbn [fst snd] in *.
  assert (HS : 0 <= STUCK <= STUCK) by (unfold STUCK; lia).
  assert (Hcases : tout = 0 \/ 0 < tout < 2 ^ 16) by (unfold STUCK in Ht; lia).
  destruct pc, (pin_high pinb) eqn:Hp.
  - rewrite poll_rising by exact Hp. do 2 eexists. split; [reflexivity |].
    cbn [fst snd]. split; [exact HS |]. right; right; left. auto.
  - assert (Hlow : pin_low pinb = true)
      by (unfold pin_high in Hp; unfold pin_low;
          apply negb_false_iff in Hp; exact Hp).
    destruct Hcases as [-> | Hpos].
    + rewrite poll_low_fires by assumption. do 2 eexists.
      split; [reflexivity |]. cbn [fst snd]. split; [exact HS |].
      right; left. repeat split; auto. discriminate.
    + rewrite poll_low_counts by assumption. do 2 eexists.
      split; [reflexivity |]. cbn [fst snd]. split; [lia |].
      left. repeat split; auto; lia.
  - destruct Hcases as [-> | Hpos].
    + destruct LIMIT_PULSE_UP.
      * rewrite poll_high_fires by assumption. do 2 eexists.
        split; [reflexivity |]. cbn [fst snd]. split; [exact HS |].
        right; left. repeat split; auto.
      * unfold poll. fold (pin_high pinb). rewrite Hp.
        do 2 eexists. split; [reflexivity |]. cbn [fst snd].
        split; [lia |]. left. repeat split; auto; try lia. discriminate.
    + rewrite poll_high_counts by assumption. do 2 eexists.
      split; [reflexivity |]. cbn [fst snd].
      split; [destruct LIMIT_PULSE_UP; lia |].
      left. repeat split; auto; try (destruct LIMIT_PULSE_UP; lia).
      discriminate.
  - rewrite poll_falling by exact Hp. do 2 eexists. split; [reflexivity |].
    cbn [fst snd]. split; [exact HS |]. right; right; right. auto.
Qed.

Lemma only_bit_changed_refl (port : Z) (s : mcu) :
  0 <= PORTB s < 2 ^ 8 -> only_bit_changed port s s.
Proof.
  intros Hv. unfold only_bit_changed. repeat split; try apply Hv.
  exists []. symmetry. apply app_nil_r.
Qed.

Lemma only_bit_changed_trans (port : Z) (a b c : mcu) :
  only_bit_changed port a b -> only_bit_changed port b c ->
  only_bit_changed port a c.
Proof.
  unfold only_bit_changed.
  intros (D1 & I1 & H1 & L1 & R1 & B1 & t1 & T1)
         (D2 & I2 & H2 & L2 & R2 & B2 & t2 & T2).
  repeat split; try congruence; try apply R2.
  - intros i Hi Hne. rewrite B2, B1 by assumption. reflexivity.
  - exists (t1 ++ t2). rewrite T2, T1, app_assoc. reflexivity.
Qed.

Lemma only_bit_changed_set (s : mcu) :
  0 <= PORTB s < 2 ^ 8 ->
  only_bit_changed PB1 s (stored (Z.lor (PORTB s) (_BV PB1)) s).
Proof.
  intros Hv. unfold only_bit_changed, stored;
    cbn [PORTB DDRB intensity pulse_high pulse_low trace].
  repeat split; try apply wrap8_range.
  - intros i Hi Hne. rewrite bit_set_spec by (unfold PB1; lia).
    replace (i =? PB1) with false by (symmetry; apply Z.eqb_neq; exact Hne).
    reflexivity.
  - eexists. reflexivity.
Qed.

Lemma only_bit_changed_clear (s : mcu) :
  0 <= PORTB s < 2 ^ 8 ->
  only_bit_changed PB1 s (stored (Z.land (PORTB s) (Z.lnot (_BV PB1))) s).
Proof.
  intros Hv. unfold only_bit_changed, stored;
    cbn [PORTB DDRB intensity pulse_high pulse_low trace].
  repeat split; try apply wrap8_range.
  - intros i Hi Hne. rewrite bit_clear_spec by (unfold PB1; lia).
    replace (i =? PB1) with false by (symmetry; apply Z.eqb_neq; exact Hne).
    reflexivity.
  - eexists. reflexivity.
Qed.

Lemma only_bit_changed_pulsed (s : mcu) :
  0 <= PORTB s < 2 ^ 8 -> only_bit_changed PB1 s (pulsed s).
Proof.
  intros Hv. unfold only_bit_changed, pulsed;
    cbn [PORTB DDRB intensity pulse_high pulse_low trace].
  repeat split; try apply wrap8_range.
  - intros i Hi Hne.
    rewrite bit_clear_spec by (try apply wrap8_range; unfold PB1; lia).
    rewrite bit_set_spec by (unfold PB1; lia).
    replace (i =? PB1) with false by (symmetry; apply Z.eqb_neq; exact Hne).
    reflexivity.
  - eexists. reflexivity.
Qed.

(** X8: whatever is read on the input, for as many reads as one likes, and
    in both builds, the watchdog loop keeps running and changes nothing but
    bit PB1 of [PORTB]: the pull-up on PB0 and the other port bits, [DDRB],
    the EEPROM byte and the two calibrated widths stay as [setup] left them,
    the trace only grows, and [tout] stays between 0 and [STUCK]. *)
Theorem loop_changes_only_PB1
  (LIMIT_PULSE_UP : bool) (pins : list Z) (st : loop_state) (s : mcu) :
  uint16 (pulse_high s) -> uint16 (pulse_low s) ->
  0 <= snd st <= STUCK -> 0 <= PORTB s < 2 ^ 8 ->
  exists st' s',
    run LIMIT_PULSE_UP pins st s = Some (st', s') /\
    0 <= snd st' <= STUCK /\
    only_bit_changed PB1 s s'.
Proof.
  revert st s. induction pins as [| p pins IH]; intros st s Hh Hl Ht Hv.
  - exists st, s. split; [reflexivity |]. split; [exact Ht |].
    apply only_bit_changed_refl, Hv.
  - destruct (poll_cases LIMIT_PULSE_UP p st s Hh Hl Ht)
      as (st1 & s1 & E1 & Ht1 & Hcase).
    assert (F1 : only_bit_changed PB1 s s1).
    { destruct Hcase as [(-> & _) | [(_ & -> & _) | [(_ & _ & _ & _ & ->)
                                                    | (_ & _ & _ & _ & ->)]]].
      - apply only_bit_changed_refl, Hv.
      - apply only_bit_changed_pulsed, Hv.
      - apply only_bit_changed_set, Hv.
      - apply only_bit_changed_clear, Hv. }
    pose proof F1 as (_ & _ & Eh & El & Hv1 & _).
    destruct (IH st1 s1) as (st2 & s2 & E2 & Ht2 & F2);
      [rewrite Eh; exact Hh | rewrite El; exact Hl | exact Ht1 | exact Hv1 |].
    exists st2, s2. cbn [run]. unfold bind. rewrite E1, E2.
    split; [reflexivity |]. split; [exact Ht2 |].
    eapply only_bit_changed_trans; eassumption.
Qed.

Lemma loop_changes_only_PB1_witness :
  (uint16 (pulse_high (MkMcu 1 2 10 33 3169 [])) /\
   uint16 (pulse_low (MkMcu 1 2 10 33 3169 [])) /\
   0 <= snd loop_entry <= STUCK /\
   0 <= PORTB (MkMcu 1 2 10 33 3169 []) < 2 ^ 8) /\
  exists st' s',
    run true [0; 1; 1; 0] loop_entry (MkMcu 1 2 10 33 3169 [])
    = Some (st', s') /\
    0 <= snd st' <= STUCK /\
    only_bit_changed PB1 (MkMcu 1 2 10 33 3169 []) s'.
Proof.
  assert (H : uint16 (pulse_high (MkMcu 1 2 10 33 3169 [])) /\
              uint16 (pulse_low (MkMcu 1 2 10 33 3169 [])) /\
              0 <= snd loop_entry <= STUCK /\
              0 <= PORTB (MkMcu 1 2 10 33 3169 []) < 2 ^ 8).
  { unfold uint16, loop_entry, STUCK.
    cbn [snd pulse_high pulse_low PORTB]. lia. }
  split; [exact H |].
  destruct H as (H1 & H2 & H3 & H4).
  exact (loop_changes_only_PB1 true [0; 1; 1; 0] loop_entry
           (MkMcu 1 2 10 33 3169 []) H1 H2 H3 H4).
Defined.

Lemma phase_of_inj (a b : bool) : phase_of a = phase_of b -> a = b.
Proof. destruct a, b; cbn; congruence. Qed.

Lemma out_high_pulsed (s : mcu) : out_high (pulsed s) = false.
Proof. apply bit_PB1_cleared. Qed.

Lemma out_high_pulsed_times (n : nat) (s : mcu) :
  out_high (pulsed_times (S n) s) = false.
Proof. rewrite pulsed_times_S. apply out_high_pulsed. Qed.

(** X9: in the build without [LIMIT_PULSE_UP] the output pin has, after
    every read of the input, the level just read, on every input: the
    substitute pulses of the low phase begin and end inside one poll and
    leave the pin low, as the input is. *)
Theorem output_follows_input_without_LIMIT_PULSE_UP
  (pins : list Z) (st : loop_state) (s : mcu) :
  uint16 (pulse_high s) -> uint16 (pulse_low s) ->
  0 <= snd st <= STUCK ->
  fst st = phase_of (out_high s) ->
  exists s',
    run_outputs false pins st s = Some (map pin_high pins, s').
Proof.
  revert st s. induction pins as [| p pins IH]; intros st s Hh Hl Ht Hpc.
  - exists s. reflexivity.
  - destruct (poll_cases false p st s Hh Hl Ht)
      as (st1 & s1 & E1 & Ht1 & Hcase).
    assert (H1 : out_high s1 = pin_high p /\
                 fst st1 = phase_of (out_high s1) /\
                 pulse_high s1 = pulse_high s /\ pulse_low s1 = pulse_low s).
    { destruct Hcase as [(-> & Ef & _ & Ep & _)
                        | [(_ & -> & -> & Ep & HL)
                          | [(_ & _ & Ep & Ef & ->) | (_ & _ & Ep & Ef & ->)]]].
      - rewrite Ep in Hpc. apply phase_of_inj in Hpc.
        rewrite <- Hpc. rewrite Ef, Ep. auto.
      - rewrite out_high_pulsed. cbn [fst].
        destruct (pin_high p); cbn [phase_of] in Ep.
        + specialize (HL Ep). discriminate.
        + rewrite Ep. auto.
      - unfold stored, out_high; cbn [PORTB pulse_high pulse_low].
        rewrite bit_PB1_set, Ep, Ef. auto.
      - unfold stored, out_high; cbn [PORTB pulse_high pulse_low].
        rewrite bit_PB1_cleared, Ep, Ef. auto. }
    destruct H1 as (Ho & Hpc1 & Eh & El).
    destruct (IH st1 s1) as (s' & E2);
      [rewrite Eh; exact Hh | rewrite El; exact Hl | exact Ht1 | exact Hpc1 |].
    exists s'. cbn [run_outputs map]. unfold bind. rewrite E1.
    unfold get. rewrite E2, Ho. reflexivity.
Qed.

Lemma output_follows_input_without_LIMIT_PULSE_UP_witness :
  (uint16 (pulse_high (MkMcu 1 2 10 33 3169 [])) /\
   uint16 (pulse_low (MkMcu 1 2 10 33 3169 [])) /\
   0 <= snd (MirroringLow, 0) <= STUCK /\
   fst (MirroringLow, 0) = phase_of (out_high (MkMcu 1 2 10 33 3169 []))) /\
  exists s',
    run_outputs false [0; 1; 1; 0] (MirroringLow, 0)
                (MkMcu 1 2 10 33 3169 [])
    = Some (map pin_high [0; 1; 1; 0], s').
Proof.
  assert (H : uint16 (pulse_high (MkMcu 1 2 10 33 3169 [])) /\
              uint16 (pulse_low (MkMcu 1 2 10 33 3169 [])) /\
              0 <= snd (MirroringLow, 0) <= STUCK /\
              fst (MirroringLow, 0)
              = phase_of (out_high (MkMcu 1 2 10 33 3169 []))).
  { unfold uint16, STUCK. cbn [fst snd pulse_high pulse_low].
    repeat split; try lia; reflexivity. }
  split; [exact H |].
  destruct H as (H1 & H2 & H3 & H4).
  exact (output_follows_input_without_LIMIT_PULSE_UP [0; 1; 1; 0]
           (MirroringLow, 0) (MkMcu 1 2 10 33 3169 []) H1 H2 H3 H4).
Defined.

(** The high phase of the build with [LIMIT_PULSE_UP]. *)

Lemma pin_high_not_low (pinb : Z) : pin_high pinb = negb (pin_low pinb).
Proof. reflexivity. Qed.

Lemma run_high_counts (pins : list Z) :
  forall tout s,
    forallb pin_high pins = true ->
    Z.of_nat (length pins) <= tout < 2 ^ 16 ->
    run true pins (MirroringHigh, tout) s
    = Some ((MirroringHigh, tout - Z.of_nat (length pins)), s).
Proof.
  induction pins as [| p pins IH]; intros tout s Hhigh Hlen.
  - cbn. unfold ret. rewrite Z.sub_0_r. reflexivity.
  - cbn [forallb] in Hhigh. apply andb_true_iff in Hhigh as [Hp Hhigh].
    cbn [length] in Hlen. rewrite Nat2Z.inj_succ in Hlen.
    cbn [run]. unfold bind. rewrite poll_high_counts by (auto; lia).
    rewrite IH by (auto; lia).
    cbn [length]. rewrite Nat2Z.inj_succ. do 3 f_equal. lia.
Qed.

Lemma run_high_first_pulse (pins : list Z) :
  forall tout s,
    uint16 (pulse_high s) -> uint16 (pulse_low s) ->
    forallb pin_high pins = true ->
    0 <= tout < 2 ^ 16 -> Z.of_nat (length pins) = tout + 1 ->
    run true pins (MirroringHigh, tout) s
    = Some ((MirroringHigh, STUCK), pulsed s).
Proof.
  induction pins as [| p pins IH]; intros tout s Hh Hl Hhigh Ht Hlen.
  - cbn [length] in Hlen. lia.
  - cbn [forallb] in Hhigh. apply andb_true_iff in Hhigh as [Hp Hhigh].
    cbn [length] in Hlen. rewrite Nat2Z.inj_succ in Hlen.
    cbn [run]. unfold bind.
    destruct (Z.eq_dec tout 0) as [-> | Hne].
    + rewrite poll_high_fires by assumption.
      destruct pins; [reflexivity | cbn [length] in Hlen; lia].
    + rewrite poll_high_counts by (auto; lia).
      apply IH; auto; lia.
Qed.

Lemma run_high_pulses (n : nat) :
  forall pins tout s,
    uint16 (pulse_high s) -> uint16 (pulse_low s) ->
    forallb pin_high pins = true ->
    0 <= tout <= STUCK ->
    Z.of_nat (length pins) = tout + 1 + Z.of_nat n * (STUCK + 1) ->
    run true pins (MirroringHigh, tout) s
    = Some ((MirroringHigh, STUCK), pulsed_times (S n) s).
Proof.
  induction n as [| n IH]; intros pins tout s Hh Hl Hhigh Ht Hlen.
  - apply run_high_first_pulse; auto; unfold STUCK in *; lia.
  - rewrite <- (firstn_skipn (Z.to_nat (tout + 1)) pins) in Hhigh |- *.
    rewrite forallb_app in Hhigh. apply andb_true_iff in Hhigh as [Hl1 Hl2].
    assert (Hlen1 : Z.of_nat (length (firstn (Z.to_nat (tout + 1)) pins))
                    = tout + 1).
    { rewrite length_firstn. unfold STUCK in *. lia. }
    assert (Hlen2 : Z.of_nat (length (skipn (Z.to_nat (tout + 1)) pins))
                    = STUCK + 1 + Z.of_nat n * (STUCK + 1)).
    { rewrite length_skipn. unfold STUCK in *. lia. }
    rewrite run_app.
    rewrite run_high_first_pulse by (auto; unfold STUCK in *; lia).
    change (pulsed_times (S (S n)) s) with (pulsed_times (S n) (pulsed s)).
    apply IH; auto; unfold STUCK; lia.
Qed.

(** X10: in the build with [LIMIT_PULSE_UP], an input stuck high is cut
    down to substitute pulses.  After the rising edge the first [tout]
    high reads only count; read [tout + 1] sends the pulse, and one more
    follows every [STUCK + 1] reads.  After each of them the output pin is
    low although the input reads high: the output no longer copies the
    input until the next edge. *)
Theorem stuck_high_is_pulsed
  (s : mcu) (tout : Z) (n : nat) (pins : list Z) :
  uint16 (pulse_high s) -> uint16 (pulse_low s) ->
  0 <= tout <= STUCK ->
  forallb pin_high pins = true ->
  Z.of_nat (length pins) = tout + 1 + Z.of_nat n * (STUCK + 1) ->
  run true (firstn (Z.to_nat tout) pins) (MirroringHigh, tout) s
  = Some ((MirroringHigh, 0), s) /\
  run true pins (MirroringHigh, tout) s
  = Some ((MirroringHigh, STUCK), pulsed_times (S n) s) /\
  out_high (pulsed_times (S n) s) = false.
Proof.
  intros Hh Hl Ht Hhigh Hlen.
  split; [| split].
  - rewrite run_high_counts.
    + rewrite length_firstn. do 3 f_equal. unfold STUCK in *. lia.
    + apply forallb_firstn, Hhigh.
    + rewrite length_firstn. unfold STUCK in *. lia.
  - apply run_high_pulses; assumption.
  - apply out_high_pulsed_times.
Qed.

Lemma stuck_high_is_pulsed_witness :
  (uint16 (pulse_high (MkMcu 3 2 10 33 3169 [])) /\
   uint16 (pulse_low (MkMcu 3 2 10 33 3169 [])) /\
   0 <= 3 <= STUCK /\
   forallb pin_high (repeat 1 4005) = true /\
   Z.of_nat (length (repeat 1 4005))
   = 3 + 1 + Z.of_nat 1 * (STUCK + 1)) /\
  run true (repeat 1 4005) (MirroringHigh, 3) (MkMcu 3 2 10 33 3169 [])
  = Some ((MirroringHigh, STUCK), pulsed_times 2 (MkMcu 3 2 10 33 3169 [])).
Proof.
  assert (H : uint16 (pulse_high (MkMcu 3 2 10 33 3169 [])) /\
              uint16 (pulse_low (MkMcu 3 2 10 33 3169 [])) /\
              0 <= 3 <= STUCK /\
              forallb pin_high (repeat 1 4005) = true /\
              Z.of_nat (length (repeat 1 4005))
              = 3 + 1 + Z.of_nat 1 * (STUCK + 1)).
  { unfold uint16, STUCK; cbn [pulse_high pulse_low].
    repeat split; try lia; vm_compute; reflexivity. }
  split; [exact H |].
  destruct H as (H1 & H2 & H3 & H4 & H5).
  exact (proj1 (proj2 (stuck_high_is_pulsed (MkMcu 3 2 10 33 3169 []) 3 1
                         (repeat 1 4005) H1 H2 H3 H4 H5))).
Defined.

(** Counting the busy-wait loops of a trace. *)

Lemma busy_waits_app (t u : list event) :
  busy_waits (t ++ u) = busy_waits t + busy_waits u.
Proof.
  unfold busy_waits. rewrite filter_app, length_app. lia.
Qed.

Lemma busy_waits_pulsed (s : mcu) :
  busy_waits (trace (pulsed s)) = busy_waits (trace s) + 2.
Proof. unfold pulsed; cbn [trace]. rewrite busy_waits_app. reflexivity. Qed.

Lemma busy_waits_stored (v : Z) (s : mcu) :
  busy_waits (trace (stored v s)) = busy_waits (trace s).
Proof.
  unfold stored; cbn [trace]. rewrite busy_waits_app.
  change (busy_waits [Out (wrap8 v)]) with 0. lia.
Qed.

Lemma run_rate (LIMIT_PULSE_UP : bool) (pins : list Z) :
  forall st s,
    uint16 (pulse_high s) -> uint16 (pulse_low s) -> 0 <= snd st <= STUCK ->
    exists st' s',
      run LIMIT_PULSE_UP pins st s = Some (st', s') /\
      (busy_waits (trace s') - busy_waits (trace s)) * (STUCK + 1)
      + 2 * (STUCK - snd st')
      <= 2 * Z.of_nat (length pins) + 2 * (STUCK - snd st).
Proof.
  induction pins as [| p pins IH]; intros st s Hh Hl Ht.
  - exists st, s. split; [reflexivity |]. cbn [length]. lia.
  - destruct (poll_cases LIMIT_PULSE_UP p st s Hh Hl Ht)
      as (st1 & s1 & E1 & Ht1 & Hcase).
    assert (H1 : pulse_high s1 = pulse_high s /\ pulse_low s1 = pulse_low s /\
                 (busy_waits (trace s1) - busy_waits (trace s)) * (STUCK + 1)
                 + 2 * (STUCK - snd st1) <= 2 + 2 * (STUCK - snd st)).
    { destruct Hcase as [(-> & _ & Hd & _)
                        | [(E0 & -> & -> & _)
                          | [(ES & _ & _ & _ & ->) | (ES & _ & _ & _ & ->)]]].
      - repeat split; lia.
      - rewrite busy_waits_pulsed, E0. cbn [snd pulse_high pulse_low].
        repeat split; unfold STUCK; lia.
      - rewrite busy_waits_stored, ES. cbn [pulse_high pulse_low].
        repeat split; unfold STUCK in *; lia.
      - rewrite busy_waits_stored, ES. cbn [pulse_high pulse_low].
        repeat split; unfold STUCK in *; lia. }
    destruct H1 as (Eh & El & Hstep).
    destruct (IH st1 s1) as (st2 & s2 & E2 & Hrest);
      [rewrite Eh; exact Hh | rewrite El; exact Hl | exact Ht1 |].
    exists st2, s2. cbn [run]. unfold bind. rewrite E1, E2.
    split; [reflexivity |].
    cbn [length]. rewrite Nat2Z.inj_succ. unfold STUCK in *. lia.
Qed.

(** X11: the watchdog loop cannot send substitute pulses faster than one
    every [STUCK + 1] reads of the input, whatever the input does and in
    both builds.  A pulse is two busy-wait loops, so from the entry of
    [loop()] the busy-wait loops in the trace, times [STUCK + 1], are at
    most twice the reads. *)
Theorem pulses_are_rate_limited
  (LIMIT_PULSE_UP : bool) (pins : list Z) (s : mcu) :
  uint16 (pulse_high s) -> uint16 (pulse_low s) ->
  exists st' s',
    run LIMIT_PULSE_UP pins loop_entry s = Some (st', s') /\
    (busy_waits (trace s') - busy_waits (trace s)) * (STUCK + 1)
    <= 2 * Z.of_nat (length pins).
Proof.
  intros Hh Hl.
  destruct (run_rate LIMIT_PULSE_UP pins loop_entry s Hh Hl)
    as (st' & s' & E & Hrate); [unfold loop_entry, STUCK; cbn; lia |].
  destruct (run_total LIMIT_PULSE_UP pins loop_entry s Hh Hl)
    as (st2 & s2 & E2 & Ht & _); [unfold loop_entry, STUCK; cbn; lia |].
  exists st', s'. split; [exact E |].
  rewrite E in E2. injection E2 as <- <-.
  unfold loop_entry in Hrate. cbn [snd] in Hrate. unfold STUCK in *. lia.
Qed.

Lemma pulses_are_rate_limited_witness :
  (uint16 (pulse_high (MkMcu 1 2 10 33 3169 [])) /\
   uint16 (pulse_low (MkMcu 1 2 10 33 3169 []))) /\
  exists st' s',
    run true (repeat 0 4001) loop_entry (MkMcu 1 2 10 33 3169 [])
    = Some (st', s') /\
    (busy_waits (trace s') - busy_waits (trace (MkMcu 1 2 10 33 3169 [])))
    * (STUCK + 1)
    <= 2 * Z.of_nat (length (repeat 0 4001)).
Proof.
  assert (H : uint16 (pulse_high (MkMcu 1 2 10 33 3169 [])) /\
              uint16 (pulse_low (MkMcu 1 2 10 33 3169 []))).
  { unfold uint16; cbn [pulse_high pulse_low]. lia. }
  split; [exact H |].
  exact (pulses_are_rate_limited true (repeat 0 4001)
           (MkMcu 1 2 10 33 3169 []) (proj1 H) (proj2 H)).
Defined.

(** X12: the countdown restarts at every edge, and the read that sees the
    edge does not count.  After a falling edge, [STUCK] more low reads send
    nothing and bring [tout] to 0; the pulse comes with low read
    [STUCK + 2], one read later than from the entry of [loop()]. *)
Theorem countdown_restarts_at_falling_edge
  (LIMIT_PULSE_UP : bool) (s : mcu) (tout pinb : Z) (pins : list Z) :
  uint16 (pulse_high s) -> uint16 (pulse_low s) ->
  pin_low pinb = true ->
  forallb pin_low pins = true ->
  Z.of_nat (length pins) = STUCK + 1 ->
  run LIMIT_PULSE_UP (pinb :: firstn (Z.to_nat STUCK) pins)
      (MirroringHigh, tout) s
  = Some ((MirroringLow, 0),
          stored (Z.land (PORTB s) (Z.lnot (_BV PB1))) s) /\
  run LIMIT_PULSE_UP (pinb :: pins) (MirroringHigh, tout) s
  = Some ((MirroringLow, STUCK),
          pulsed (stored (Z.land (PORTB s) (Z.lnot (_BV PB1))) s)).
Proof.
  intros Hh Hl Hp Hlow Hlen.
  assert (Hph : pin_high pinb = false)
    by (rewrite pin_high_not_low, Hp; reflexivity).
  cbn [run]. unfold bind. rewrite poll_falling by exact Hph.
  fold (stored (Z.land (PORTB s) (Z.lnot (_BV PB1))) s).
  split.
  - rewrite run_low_counts.
    + rewrite length_firstn. do 3 f_equal. unfold STUCK in *. lia.
    + apply forallb_firstn, Hlow.
    + rewrite length_firstn. unfold STUCK in *. lia.
  - apply run_low_first_pulse; auto; unfold STUCK in *; lia.
Qed.

Lemma countdown_restarts_at_falling_edge_witness :
  (uint16 (pulse_high (MkMcu 3 2 10 33 3169 [])) /\
   uint16 (pulse_low (MkMcu 3 2 10 33 3169 [])) /\
   pin_low 0 = true /\
   forallb pin_low (repeat 0 4001) = true /\
   Z.of_nat (length (repeat 0 4001)) = STUCK + 1) /\
  run false (0 :: repeat 0 4001) (MirroringHigh, STUCK)
      (MkMcu 3 2 10 33 3169 [])
  = Some ((MirroringLow, STUCK),
          pulsed (stored (Z.land 3 (Z.lnot (_BV PB1)))
                         (MkMcu 3 2 10 33 3169 []))).
Proof.
  assert (H : uint16 (pulse_high (MkMcu 3 2 10 33 3169 [])) /\
              uint16 (pulse_low (MkMcu 3 2 10 33 3169 [])) /\
              pin_low 0 = true /\
              forallb pin_low (repeat 0 4001) = true /\
              Z.of_nat (length (repeat 0 4001)) = STUCK + 1).
  { unfold uint16, STUCK; cbn [pulse_high pulse_low].
    repeat split; try lia; vm_compute; reflexivity. }
  split; [exact H |].
  destruct H as (H1 & H2 & H3 & H4 & H5).
  exact (proj2 (countdown_restarts_at_falling_edge false
                  (MkMcu 3 2 10 33 3169 []) STUCK 0 (repeat 0 4001)
                  H1 H2 H3 H4 H5)).
Defined.

(** ** From reset *)

(** X13: [main] from reset on an input that stays low: [setup] stores twice
    to [PORTB], and read [STUCK + 1] of the input sends the first
    substitute pulse, as wide as the EEPROM byte says: [us2loops raw]
    passes high and [us2loops (1000 - raw)] passes low, where [raw] is the
    byte, or 5 for the byte 255.  The pull-up on PB0 is on in every store
    of the pulse. *)
Theorem main_pulses_idle_input
  (F_CPU : Z) (LIMIT_PULSE_UP : bool) (s : mcu) (pins : list Z) :
  0 <= intensity s <= 255 -> 0 <= PORTB s < 2 ^ 8 ->
  forallb pin_low pins = true ->
  Z.of_nat (length pins) = STUCK + 1 ->
  exists first second high low s',
    main F_CPU LIMIT_PULSE_UP pins s = Some (loop_entry, s') /\
    trace s'
    = trace s ++
      [Out first; Out second; Out high;
       Nops (us2loops F_CPU (if intensity s =? 255 then 5 else intensity s));
       Out low;
       Nops (us2loops F_CPU
               (1000 - (if intensity s =? 255 then 5 else intensity s)))] /\
    Z.testbit high PB1 = true /\ Z.testbit low PB1 = false /\
    Z.testbit high PB0 = true /\ Z.testbit low PB0 = true.
Proof.
  intros Hraw Hv Hlow Hlen.
  unfold main, bind. rewrite setup_calibrated by exact Hraw.
  unfold loop_entry.
  rewrite run_low_first_pulse;
    [| apply us2loops_uint16 | apply us2loops_uint16 | exact Hlow
     | unfold STUCK; lia | exact Hlen].
  set (raw := if intensity s =? 255 then 5 else intensity s).
  assert (Hr : 0 <= raw <= 254).
  { unfold raw. destruct (intensity s =? 255) eqn:E; [lia |].
    apply Z.eqb_neq in E. lia. }
  unfold pulsed, calibrated; cbn [PORTB DDRB intensity pulse_high pulse_low trace].
  fold raw.
  replace (wrap16 (1000 - raw)) with (1000 - raw)
    by (unfold wrap16; rewrite Z.mod_small; lia).
  do 5 eexists. split; [reflexivity |].
  split; [rewrite <- app_assoc; reflexivity |].
  split; [apply bit_PB1_set |]. split; [apply bit_PB1_cleared |].
  assert (H0 : Z.testbit
                 (wrap8 (Z.lor (wrap8 (Z.land
                    (wrap8 (Z.lor (PORTB s) (_BV PB0))) (Z.lnot (_BV PB1))))
                    (_BV PB1))) PB0 = true).
  { rewrite bit_set_spec by (try apply wrap8_range; unfold PB0, PB1; lia).
    rewrite bit_clear_spec by (try apply wrap8_range; unfold PB0, PB1; lia).
    rewrite bit_set_spec by (unfold PB0; lia). reflexivity. }
  split; [exact H0 |].
  rewrite bit_clear_spec by (try apply wrap8_range; unfold PB0, PB1; lia).
  exact H0.
Qed.

Lemma main_pulses_idle_input_witness :
  (0 <= intensity (MkMcu 0 0 255 0 0 []) <= 255 /\
   0 <= PORTB (MkMcu 0 0 255 0 0 []) < 2 ^ 8 /\
   forallb pin_low (repeat 0 4001) = true /\
   Z.of_nat (length (repeat 0 4001)) = STUCK + 1) /\
  exists first second high low s',
    main 16000000 false (repeat 0 4001) (MkMcu 0 0 255 0 0 [])
    = Some (loop_entry, s') /\
    trace s' = [] ++ [Out first; Out second; Out high;
                      Nops (us2loops 16000000 5); Out low;
                      Nops (us2loops 16000000 (1000 - 5))].
Proof.
  assert (H : 0 <= intensity (MkMcu 0 0 255 0 0 []) <= 255 /\
              0 <= PORTB (MkMcu 0 0 255 0 0 []) < 2 ^ 8 /\
              forallb pin_low (repeat 0 4001) = true /\
              Z.of_nat (length (repeat 0 4001)) = STUCK + 1).
  { unfold STUCK; cbn [intensity PORTB].
    repeat split; try lia; vm_compute; reflexivity. }
  split; [exact H |].
  destruct H as (H1 & H2 & H3 & H4).
  destruct (main_pulses_idle_input 16000000 false (MkMcu 0 0 255 0 0 [])
              (repeat 0 4001) H1 H2 H3 H4)
    as (first & second & high & low & s' & E & Et & _).
  exists first, second, high, low, s'. split; [exact E | exact Et].
Defined.

(** ** Further properties of the test loop *)

Lemma bit_toggle_spec (v i : Z) :
  0 <= v < 2 ^ 8 -> 0 <= i ->
  Z.testbit (wrap8 (Z.lxor v (_BV PB1))) i
  = if i =? PB1 then negb (Z.testbit v i) else Z.testbit v i.
Proof.
  intros Hv Hi.
  rewrite wrap8_testbit, Z.lxor_spec, _BV_testbit by (unfold PB1; lia).
  rewrite (Z.eqb_sym PB1 i).
  destruct (i =? PB1) eqn:E.
  - apply Z.eqb_eq in E. subst i. cbn [Z.ltb Z.compare PB1].
    apply xorb_true_r.
  - rewrite xorb_false_r. destruct (i <? 8) eqn:E8; [reflexivity |].
    apply Z.ltb_ge in E8. symmetry. apply byte_high_bits; assumption.
Qed.

Lemma toggle_twice (v : Z) :
  0 <= v < 2 ^ 8 ->
  wrap8 (Z.lxor (wrap8 (Z.lxor v (_BV PB1))) (_BV PB1)) = v.
Proof.
  intros Hv. apply Z.bits_inj'. intros i Hi.
  rewrite bit_toggle_spec by (try apply wrap8_range; exact Hi).
  rewrite bit_toggle_spec by assumption.
  destruct (i =? PB1); [apply negb_involutive | reflexivity].
Qed.

Lemma only_bit_changed_toggle (F_CPU : Z) (s : mcu) :
  0 <= PORTB s < 2 ^ 8 ->
  only_bit_changed PB1 s
    (MkMcu (wrap8 (Z.lxor (PORTB s) (_BV PB1))) (DDRB s) (intensity s)
           (pulse_high s) (pulse_low s)
           (trace s ++ [Nops (us2loops F_CPU 500);
                        Out (wrap8 (Z.lxor (PORTB s) (_BV PB1)))])).
Proof.
  intros Hv. unfold only_bit_changed;
    cbn [PORTB DDRB intensity pulse_high pulse_low trace].
  repeat split; try apply wrap8_range.
  - intros i Hi Hne. rewrite bit_toggle_spec by assumption.
    replace (i =? PB1) with false by (symmetry; apply Z.eqb_neq; exact Hne).
    reflexivity.
  - eexists. reflexivity.
Qed.

(** X14: the test loop changes nothing but PB1, and two rounds bring
    [PORTB] back: after an even number of rounds the port holds the byte it
    held before, after an odd number that byte with PB1 toggled. *)
Theorem test_loop_toggles_only_PB1 (F_CPU : Z) (n : nat) (s : mcu) :
  0 <= PORTB s < 2 ^ 8 ->
  exists s',
    rounds n (test_iteration F_CPU) s = Some (tt, s') /\
    PORTB s' = (if Nat.even n then PORTB s
                else wrap8 (Z.lxor (PORTB s) (_BV PB1))) /\
    only_bit_changed PB1 s s'.
Proof.
  revert s. induction n as [| n IH]; intros s Hv.
  - exists s. split; [reflexivity |]. split; [reflexivity |].
    apply only_bit_changed_refl, Hv.
  - cbn [rounds]. unfold bind. rewrite test_iteration_runs.
    pose proof (only_bit_changed_toggle F_CPU s Hv) as F1.
    match goal with
    | |- context [rounds n _ ?s1] =>
        destruct (IH s1) as (s' & E & Ep & F2); [apply wrap8_range |]
    end.
    exists s'. split; [exact E |]. split.
    + rewrite Ep. cbn [PORTB]. rewrite Nat.even_succ, <- Nat.negb_even.
      destruct (Nat.even n); cbn [negb];
        [reflexivity | apply toggle_twice, Hv].
    + eapply only_bit_changed_trans; eassumption.
Qed.

Lemma test_loop_toggles_only_PB1_witness :
  0 <= PORTB (MkMcu 1 2 10 33 3169 []) < 2 ^ 8 /\
  exists s',
    rounds 4 (test_iteration 16000000) (MkMcu 1 2 10 33 3169 [])
    = Some (tt, s') /\
    PORTB s' = (if Nat.even 4 then PORTB (MkMcu 1 2 10 33 3169 [])
                else wrap8 (Z.lxor (PORTB (MkMcu 1 2 10 33 3169 []))
                                   (_BV PB1))) /\
    only_bit_changed PB1 (MkMcu 1 2 10 33 3169 []) s'.
Proof.
  assert (H : 0 <= PORTB (MkMcu 1 2 10 33 3169 []) < 2 ^ 8)
    by (cbn [PORTB]; lia).
  split; [exact H |].
  exact (test_loop_toggles_only_PB1 16000000 4 (MkMcu 1 2 10 33 3169 []) H).
Defined.

(** ** The conversion and the clock *)

(** X15: the source counts 5 cycles for a pass of the busy loop.  On a clock
    that is a multiple of 100 kHz and within the range of the formula, the
    passes [us2loops] gives take longer than the microseconds asked for, by
    no more than one pass: the conversion never rounds a wait down. *)
Theorem us2loops_never_short (F_CPU us : Z) :
  F_CPU mod 100000 = 0 -> fits_loops F_CPU us ->
  us * F_CPU < 5 * us2loops F_CPU us * 1000000
  <= us * F_CPU + 5 * 1000000.
Proof.
  intros Hmul Hfit. rewrite us2loops_exact by exact Hfit.
  destruct Hfit as (Hus & Hf & _).
  assert (HF : F_CPU = 100000 * (F_CPU / 100000)) by lia.
  assert (Hk : 0 <= F_CPU / 100000) by (apply Z.div_pos; lia).
  set (k := F_CPU / 100000) in *.
  assert (Hp : 0 <= us * k) by nia.
  replace (us * F_CPU) with (100000 * (us * k)) by (rewrite HF; ring).
  set (p := us * k) in *. lia.
Qed.

Lemma us2loops_never_short_witness :
  (9600000 mod 100000 = 0 /\ fits_loops 9600000 1000) /\
  1000 * 9600000 < 5 * us2loops 9600000 1000 * 1000000
  <= 1000 * 9600000 + 5 * 1000000.
Proof.
  assert (H : 9600000 mod 100000 = 0 /\ fits_loops 9600000 1000).
  { unfold fits_loops; cbn; lia. }
  split; [exact H |].
  exact (us2loops_never_short 9600000 1000 (proj1 H) (proj2 H)).
Defined.

(** X16: how far [us2loops] reaches before its 16-bit result wraps, at the
    three clocks the source names.  For a 16-bit input the value returned is
    the value of the formula exactly up to 20479 microseconds at 16 MHz, up
    to 34132 at 9.6 MHz and up to 40959 at 8 MHz, and differs from it for
    every longer input. *)
Theorem us2loops_range_at_documented_clocks (us : Z) :
  0 <= us < 2 ^ 16 ->
  (us2loops 16000000 us = us * 160 / 50 + 1 <-> us <= 20479) /\
  (us2loops 9600000 us = us * 96 / 50 + 1 <-> us <= 34132) /\
  (us2loops 8000000 us = us * 80 / 50 + 1 <-> us <= 40959).
Proof.
  intros Hus. unfold us2loops, wrap16, wrap32.
  change (16000000 / 100000) with 160.
  change (9600000 / 100000) with 96.
  change (8000000 / 100000) with 80.
  repeat split; lia.
Qed.

Lemma us2loops_range_at_documented_clocks_witness :
  0 <= 20480 < 2 ^ 16 /\
  (us2loops 16000000 20480 = 20480 * 160 / 50 + 1 <-> 20480 <= 20479) /\
  (us2loops 9600000 20480 = 20480 * 96 / 50 + 1 <-> 20480 <= 34132) /\
  (us2loops 8000000 20480 = 20480 * 80 / 50 + 1 <-> 20480 <= 40959).
Proof.
  assert (H : 0 <= 20480 < 2 ^ 16) by lia.
  split; [exact H |].
  exact (us2loops_range_at_documented_clocks 20480 H).
Defined.
